(** * SSD1306 status monitor: [display_controller.py]

    A shallow embedding of [DisplayController] and of the demo loop that
    drives it, together with the properties of the specification that can be
    settled on it.

    The controller sits on libraries that are not part of the repository:
    Pillow ([Image], [ImageDraw], [ImageFont]), the Adafruit_SSD1306
    driver, psutil and [datetime].  What the controller uses of them is
    modelled in the modules [PIL], [SSD1306], [psutil] and [datetime]; the
    host (uptime, CPU load, systemctl, the default font) is the record
    [env].  Everything under the headings "display_controller.py" follows
    the source line by line.

    Python numbers: an [int] is a [Z]; a [float] is idealised as an exact
    rational ([Q]).  Every float is a rational, and no statement below
    depends on how an inexact float operation rounds. *)

From Stdlib Require Import ZArith QArith Qround Bool Ascii String List Lia Lqa.
Import ListNotations.

Open Scope Z_scope.

(* ================================================================== *)
(** ** Python values *)

Inductive pynum : Type :=
| PyInt (z : Z)
| PyFloat (q : Q).

Coercion PyInt : Z >-> pynum.

Definition to_float (a : pynum) : Q :=
  match a with
  | PyInt z => inject_Z z
  | PyFloat q => q
  end.

(** [a + b]: integer addition on two ints, float addition otherwise. *)
Definition py_add (a b : pynum) : pynum :=
  match a, b with
  | PyInt x, PyInt y => PyInt (x + y)
  | _, _ => PyFloat (to_float a + to_float b)
  end.

(** The C cast [(int) d] applied to a coordinate: truncation toward zero. *)
Definition Qtrunc (q : Q) : Z :=
  if Qle_bool 0 q then Qfloor q else Qceiling q.

Definition c_int (a : pynum) : Z :=
  match a with
  | PyInt z => z
  | PyFloat q => Qtrunc q
  end.

Inductive exn : Type := TypeError | ValueError | IOError.

Inductive result (A : Type) : Type :=
| Ok (a : A)
| Raise (e : exn).

Arguments Ok {A} a.
Arguments Raise {A} e.

Definition bind {A B : Type} (m : result A) (k : A -> result B) : result B :=
  match m with
  | Ok a => k a
  | Raise e => Raise e
  end.

Notation "x <- m ;; k" := (bind m (fun x => k))
  (at level 61, m at next level, right associativity).


(** What [psutil.cpu_percent] hands back: one float, or a list of floats. *)
Inductive pyvalue : Type :=
| VFloat (q : Q)
| VList (l : list Q).

(** [for load in v]: the items of a list; a float is not iterable. *)
Definition py_iter (v : pyvalue) : result (list Q) :=
  match v with
  | VList l => Ok l
  | VFloat _ => Raise TypeError
  end.

(** A list with the position of each element, as the loops below use it. *)
Fixpoint mapi_from {A B : Type} (f : Z -> A -> B) (i : Z) (l : list A) : list B :=
  match l with
  | [] => []
  | a :: t => f i a :: mapi_from f (i + 1) t
  end.

(* ================================================================== *)
(** ** Pillow: a bi-level image and the drawing primitives used on it

    Not part of the repository.  The definitions follow Pillow's
    [ImageDraw.py] and [Draw.c] in the releases that run on Python 2.7. *)

Module PIL.

(** An [Image] of mode ['1']: its size and its rows of pixels, [true]
    being a lit (non-zero) pixel. *)
Record image : Type := mkImage {
  im_width : nat;
  im_height : nat;
  im_rows : list (list bool)
}.

(** [Image.new('1', (w, h))]: every pixel is 0. *)
Definition new (w h : nat) : image :=
  mkImage w h (repeat (repeat false w) h).

Definition getpixel (im : image) (x y : Z) : option bool :=
  if (x <? 0) || (y <? 0) then None
  else match nth_error (im_rows im) (Z.to_nat y) with
       | Some row => nth_error row (Z.to_nat x)
       | None => None
       end.

(** Store [ink] in every pixel of the image selected by [sel]; positions
    outside the image are never written (the clipping of Draw.c). *)
Definition paint (sel : Z -> Z -> bool) (ink : bool) (im : image) : image :=
  mkImage (im_width im) (im_height im)
    (mapi_from
       (fun y row => mapi_from (fun x b => if sel x y then ink else b) 0 row)
       0 (im_rows im)).

(** Whether [p] lies between [a] and [b], whichever of the two is smaller:
    [hline8] and [ImagingDrawRectangle] swap their end points when they
    come in decreasing order, and both end points are drawn. *)
Definition in_span (a b p : Z) : bool :=
  (Z.min a b <=? p) && (p <=? Z.max a b).

(** [hline8(im, x0, y, x1, ink)]. *)
Definition hline (im : image) (x0 y x1 : Z) (ink : bool) : image :=
  paint (fun px py => (py =? y) && in_span x0 x1 px) ink im.

(** [line8] on a vertical segment. *)
Definition vline (im : image) (x y0 y1 : Z) (ink : bool) : image :=
  paint (fun px py => (px =? x) && in_span y0 y1 py) ink im.

(** [ImagingDrawRectangle(im, x0, y0, x1, y1, ink, fill)]. *)
Definition ImagingDrawRectangle
    (im : image) (x0 y0 x1 y1 : Z) (ink fill : bool) : image :=
  let ya := Z.min y0 y1 in
  let yb := Z.max y0 y1 in
  if fill then
    paint (fun px py => in_span ya yb py && in_span x0 x1 px) ink im
  else
    let im1 := hline im x0 ya x1 ink in
    let im2 := hline im1 x0 yb x1 ink in
    let im3 := vline im2 x1 ya yb ink in
    vline im3 x0 yb ya ink.

(** [ImageDraw.rectangle(xy, fill, outline)] with both colours given.
    The controller always passes booleans, never [None]: [True] is ink 1
    and [False] is ink 0, so [fill=False] fills the box with background.
    The box is filled with the fill colour, then its border is drawn in
    the outline colour when that differs. *)
Definition rectangle
    (im : image) (x0 y0 x1 y1 : Z) (outline fill : bool) : image :=
  let im1 := ImagingDrawRectangle im x0 y0 x1 y1 fill true in
  if Bool.eqb outline fill then im1
  else ImagingDrawRectangle im1 x0 y0 x1 y1 outline false.

(** A font, as far as drawing needs it: the mask [font.getmask(text)],
    rows of pixels with [true] where a glyph has ink. *)
Definition font : Type := string -> list (list bool).

Definition mask_at (m : list (list bool)) (dx dy : Z) : bool :=
  if (dx <? 0) || (dy <? 0) then false
  else match nth_error m (Z.to_nat dy) with
       | Some row => nth (Z.to_nat dx) row false
       | None => false
       end.

(** [ImageDraw.text(xy, text, font, fill)]: the mask of the text is
    stamped with its top-left corner at [xy], in the colour [fill]. *)
Definition text
    (im : image) (x y : Z) (s : string) (f : font) (fill : bool) : image :=
  paint (fun px py => mask_at (f s) (px - x) (py - y)) fill im.

End PIL.

(* ================================================================== *)
(** ** Adafruit_SSD1306: the driver of the panel

    Not part of the repository.  The driver keeps a frame in memory
    ([_buffer]) and talks to the panel over a bus.  The frame is kept here
    as rows of pixels rather than as the packed pages the chip expects, and
    the bus traffic is recorded in [wire]. *)

Module SSD1306.

Inductive bus_event : Type :=
| Init
| Frame (rows : list (list bool)).

Record device : Type := mkDevice {
  width : nat;
  height : nat;
  buffer : list (list bool);
  wire : list bus_event;
  bus_up : bool
}.

Definition blank (w h : nat) : list (list bool) := repeat (repeat false w) h.

(** [SSD1306_128_64(rst=...)]. *)
Definition SSD1306_128_64 (up : bool) : device :=
  mkDevice 128 64 (blank 128 64) [] up.

Definition write (d : device) (e : bus_event) : result device :=
  if bus_up d
  then Ok (mkDevice (width d) (height d) (buffer d) (wire d ++ [e]) (bus_up d))
  else Raise IOError.

(** [begin()]: reset and initialise the panel. *)
Definition begin (d : device) : result device := write d Init.

(** [clear()]: [self._buffer = [0]*(self.width*self._pages)]. *)
Definition clear (d : device) : device :=
  mkDevice (width d) (height d) (blank (width d) (height d)) (wire d) (bus_up d).

(** [image(image)]: the image must have the size of the panel; it is
    copied into the frame. *)
Definition image (d : device) (im : PIL.image) : result device :=
  if (PIL.im_width im =? width d)%nat && (PIL.im_height im =? height d)%nat
  then Ok (mkDevice (width d) (height d) (PIL.im_rows im) (wire d) (bus_up d))
  else Raise ValueError.

(** [display()]: send the frame to the panel. *)
Definition display (d : device) : result device := write d (Frame (buffer d)).

End SSD1306.

(* ================================================================== *)
(** ** The host: metric sources and the default font *)

Record env : Type := mkEnv {
  (** [ImageFont.load_default()] *)
  load_default : PIL.font;
  (** the first field of [/proc/uptime], read as a float *)
  proc_uptime : Q;
  (** psutil's system-wide and per-core readings over the interval *)
  cpu_aggregate : Q;
  cpu_per_core : list Q;
  (** exit status of [systemctl -q <verb> <unit>] *)
  systemctl : string -> string -> Z
}.

Module psutil.

(** [psutil.cpu_percent(interval=1, percpu=...)]: a float when [percpu] is
    false, a list with one float per core when it is true. *)
Definition cpu_percent (e : env) (percpu : bool) : pyvalue :=
  if percpu then VList (cpu_per_core e) else VFloat (cpu_aggregate e).

End psutil.

(* ================================================================== *)
(** ** Python strings: [%d], [%0Nd] and slices *)

Definition digit (d : Z) : ascii := ascii_of_nat (48 + Z.to_nat d).

Fixpoint digits_aux (fuel : nat) (n : Z) (acc : string) : string :=
  match fuel with
  | O => acc
  | S f =>
      let acc' := String (digit (n mod 10)) acc in
      if n / 10 =? 0 then acc' else digits_aux f (n / 10) acc'
  end.

(** The decimal digits of a non-negative number; it has no more decimal
    digits than binary ones, which bounds the recursion. *)
Definition digits (n : Z) : string :=
  digits_aux (S (Z.to_nat (Z.log2 n))) n "".

Fixpoint zeros (k : nat) : string :=
  match k with
  | O => ""%string
  | S k' => String "0" (zeros k')
  end.

(** ["%d" % n] *)
Definition fmt_d (n : Z) : string :=
  if n <? 0 then ("-" ++ digits (- n))%string else digits n.

(** ["%0wd" % n] *)
Definition fmt_0d (w : nat) (n : Z) : string :=
  if n <? 0
  then ("-" ++ zeros (w - 1 - String.length (digits (- n))) ++ digits (- n))%string
  else (zeros (w - String.length (digits n)) ++ digits n)%string.

(** [s[:stop]] *)
Definition py_slice_to (s : string) (stop : Z) : string :=
  let len := Z.of_nat (String.length s) in
  let stop' := if stop <? 0 then Z.max 0 (len + stop) else Z.min stop len in
  substring 0 (Z.to_nat stop') s.

(* ================================================================== *)
(** ** [datetime.timedelta] *)

Module datetime.

Record timedelta : Type := mkDelta {
  days : Z;
  seconds : Z;
  microseconds : Z
}.

(** Rounding to the nearest integer, halves away from zero. *)
Definition round_to_long (q : Q) : Z :=
  if Qle_bool 0 q then Qfloor (q + (1 # 2)) else Qceiling (q - (1 # 2)).

(** [timedelta(seconds=s)]: the duration is rounded to whole microseconds
    and normalised to [0 <= microseconds < 10^6], [0 <= seconds < 86400]. *)
Definition of_seconds (s : Q) : timedelta :=
  let us := round_to_long (s * inject_Z 1000000) in
  let secs := us / 1000000 in
  mkDelta (secs / 86400) (secs mod 86400) (us mod 1000000).

(** [str(td)] *)
Definition str (td : timedelta) : string :=
  let minutes := seconds td / 60 in
  let ss := seconds td mod 60 in
  let hours := minutes / 60 in
  let mm := minutes mod 60 in
  let s := (fmt_d hours ++ ":" ++ fmt_0d 2 mm ++ ":" ++ fmt_0d 2 ss)%string in
  let plural := if Z.abs (days td) =? 1 then ""%string else "s"%string in
  let s :=
    if days td =? 0 then s
    else (fmt_d (days td) ++ " day" ++ plural ++ ", " ++ s)%string in
  if microseconds td =? 0 then s
  else (s ++ "." ++ fmt_0d 6 (microseconds td))%string.

End datetime.

(* ================================================================== *)
(** ** display_controller.py: [class DisplayController] *)

Record DisplayController : Type := mkController {
  _display : SSD1306.device;
  _image : PIL.image
}.

Definition get_display_width (self : DisplayController) : nat :=
  SSD1306.width (_display self).

Definition get_display_height (self : DisplayController) : nat :=
  SSD1306.height (_display self).

Definition _get_clean_canvas (self : DisplayController) : PIL.image :=
  PIL.new (get_display_width self) (get_display_height self).

Definition clear_canvas (render : bool) (self : DisplayController)
  : result DisplayController :=
  let image := _get_clean_canvas self in
  let d := SSD1306.clear (_display self) in
  if render then
    d' <- SSD1306.display d ;;
    Ok (mkController d' image)
  else Ok (mkController d image).

(** [__init__(rst_pin=24)] on a bus that answers ([up]) or does not. *)
Definition __init__ (up : bool) : result DisplayController :=
  d <- SSD1306.begin (SSD1306.SSD1306_128_64 up) ;;
  let self := mkController d (PIL.new (SSD1306.width d) (SSD1306.height d)) in
  clear_canvas false self.

Definition draw_rectangle (self : DisplayController)
    (x y width height : pynum) (outline fill : bool) : DisplayController :=
  mkController (_display self)
    (PIL.rectangle (_image self)
       (c_int x) (c_int y) (c_int (py_add x width)) (c_int (py_add y height))
       outline fill).

Definition _get_default_font (e : env) : PIL.font := load_default e.

Definition draw_text (e : env) (self : DisplayController)
    (x y : pynum) (text : string) (font : option PIL.font) (fill : bool)
  : DisplayController :=
  let font :=
    match font with
    | None => _get_default_font e
    | Some f => f
    end in
  mkController (_display self)
    (PIL.text (_image self) (c_int x) (c_int y) text font fill).

Definition render_canvas (self : DisplayController) : result DisplayController :=
  d <- SSD1306.image (_display self) (_image self) ;;
  d' <- SSD1306.display d ;;
  Ok (mkController d' (_image self)).

(** The drawing calls a widget issues on [self], in the order it issues
    them; [perform] carries one out. *)
Inductive call : Type :=
| Rect (x y width height : pynum) (outline fill : bool)
| Text (x y : pynum) (text : string) (font : option PIL.font) (fill : bool).

Definition perform (e : env) (self : DisplayController) (c : call)
  : DisplayController :=
  match c with
  | Rect x y w h outline fill => draw_rectangle self x y w h outline fill
  | Text x y s font fill => draw_text e self x y s font fill
  end.

Definition perform_all (e : env) (self : DisplayController) (cs : list call)
  : DisplayController :=
  fold_left (perform e) cs self.

(** *** [draw_system_uptime] *)

Definition get_system_uptime (e : env) : string :=
  let uptime_seconds := proc_uptime e in
  py_slice_to (datetime.str (datetime.of_seconds uptime_seconds)) (-7).

Definition draw_system_uptime (e : env) (x y : Z)
    (font : option PIL.font) (fill : bool) : list call :=
  [Text x y (get_system_uptime e) font fill].

(** *** [draw_cpu_bars] *)

Fixpoint cpu_bars_loop (x y bar_width bar_height padding : Z)
    (horizontal : bool) (core_loads : list Q) : list call :=
  match core_loads with
  | [] => []
  | load :: rest =>
      if horizontal then
        Rect x y (PyFloat (load / 100 * inject_Z bar_width)) bar_height
             true true
        :: cpu_bars_loop x (y + (bar_height + 1 + padding))
             bar_width bar_height padding horizontal rest
      else
        Rect x y bar_width (PyFloat (load / 100 * inject_Z bar_height))
             true true
        :: cpu_bars_loop (x + (bar_width + 1 + padding)) y
             bar_width bar_height padding horizontal rest
  end.

Definition draw_cpu_bars (e : env) (x y bar_width bar_height padding : Z)
    (horizontal percpu : bool) : result (list call) :=
  let core_loads := psutil.cpu_percent e percpu in
  loads <- py_iter core_loads ;;
  Ok (cpu_bars_loop x y bar_width bar_height padding horizontal loads).

(** *** [draw_service_status] *)

Inductive status : Type := FAILED | active | in_active.

Definition get_service_status (e : env) (service : string) : status :=
  let is_active := systemctl e "is-active" service =? 0 in
  let is_failed := systemctl e "is-failed" service =? 0 in
  if is_failed then FAILED
  else if is_active then active
  else in_active.

Definition rect_width : Z := 23.
Definition rect_height : Z := 13.

(** [services] is the dictionary as the loop walks it: its keys in
    iteration order, each with the value [services[service]]. *)
Fixpoint draw_service_status (e : env) (x y : Z)
    (services : list (string * string)) : list call :=
  match services with
  | [] => []
  | (service, name) :: rest =>
      let status := get_service_status e service in
      (match status with
       | FAILED =>
           [ Rect x y rect_width rect_height true false;
             Rect (x + 2) (y + 2) (rect_width - 4) (rect_height - 4) true false;
             Text (x + 3) (y + 1) name None true ]
       | in_active =>
           [ Rect x y rect_width rect_height true false;
             Text (x + 3) (y + 1) name None true ]
       | active => []
       end)
      ++ draw_service_status e (x + (rect_width + 2)) y rest
  end.

(* ================================================================== *)
(** ** display_controller.py: the demo script *)

(** How the process ends: [sys.exit(code)], or an exception nobody
    catches. *)
Inductive outcome : Type :=
| Exited (code : Z) (controller : DisplayController)
| Uncaught (e : exn).

(** The exit status the shell sees: a traceback ends the interpreter with
    status 1. *)
Definition exit_status (o : outcome) : Z :=
  match o with
  | Exited code _ => code
  | Uncaught _ => 1
  end.

Definition signal_handler (controller : DisplayController) : outcome :=
  match clear_canvas true controller with
  | Ok controller' => Exited 0 controller'
  | Raise e => Uncaught e
  end.

Definition demo_services : list (string * string) :=
  [ ("nginx.service", "NGX");
    ("home-assistant.service", "HAS");
    ("grafana-server.service", "GRA");
    ("pyload.service", "PYL");
    ("raspyrfm.service", "RPY") ]%string.

(** One turn of [while True:]. *)
Definition cycle (e : env) (controller : DisplayController)
  : result DisplayController :=
  controller <- clear_canvas false controller ;;
  let x := 2 in
  let y := 2 in
  let controller :=
    perform_all e controller (draw_system_uptime e x y None true) in
  let y := 20 in
  let controller :=
    perform_all e controller (draw_service_status e x y demo_services) in
  let y := 40 in
  bars <- draw_cpu_bars e x y
            (Z.of_nat (get_display_width controller) - 1 - 2) 3 1 true true ;;
  let controller := perform_all e controller bars in
  render_canvas controller.

(** The first turns of [while True:], one state of the host per turn; an
    exception ends the loop. *)
Fixpoint run_loop (hosts : list env) (controller : DisplayController)
  : result DisplayController :=
  match hosts with
  | [] => Ok controller
  | e :: rest =>
      controller' <- cycle e controller ;;
      run_loop rest controller'
  end.

(* ================================================================== *)
(** ** display_controller.py: the clock and the date *)

Module time.

(** What [time.localtime()] returns. *)
Record struct_time : Type := mkTime {
  tm_year : Z;
  tm_mon : Z;
  tm_mday : Z;
  tm_hour : Z;
  tm_min : Z;
  tm_sec : Z;
  tm_wday : Z;
  tm_yday : Z;
  tm_isdst : Z
}.

End time.

(** [str(n)] of an int *)
Definition str (n : Z) : string := fmt_d n.

(** [s.zfill(width)]: zeros on the left up to [width] characters, after
    the sign when the string starts with one. *)
Definition zfill (s : string) (width : nat) : string :=
  let len := String.length s in
  if (width <=? len)%nat then s
  else
    let fill := (width - len)%nat in
    match s with
    | String c rest =>
        if (Ascii.eqb c "+" || Ascii.eqb c "-")%bool
        then String c (zeros fill ++ rest)
        else (zeros fill ++ s)%string
    | EmptyString => zeros fill
    end.

(** [_get_current_time()], on the reading [t] of [time.localtime()]. *)
Definition _get_current_time (t : time.struct_time) : string :=
  let hour := time.tm_hour t in
  let minute := time.tm_min t in
  let second := time.tm_sec t in
  (zfill (str hour) 2 ++ ":" ++ zfill (str minute) 2
     ++ ":" ++ zfill (str second) 2)%string.

(** [_get_current_date()], on the reading [t] of [time.localtime()]. *)
Definition _get_current_date (t : time.struct_time) : string :=
  let year := time.tm_year t in
  let month := time.tm_mon t in
  let day := time.tm_mday t in
  (zfill (str day) 2 ++ "." ++ zfill (str month) 2 ++ "." ++ str year)%string.

Definition draw_time (t : time.struct_time) (x y : Z)
    (font : option PIL.font) (fill : bool) : list call :=
  [Text x y (_get_current_time t) font fill].

(* ================================================================== *)
(** * The vocabulary of the specification, and fixtures

    Regions of the canvas, the claims of the specification that are
    compared with the code, and the hosts and controllers on which the
    theorems are tried. *)

(** The closed box between two corners, and its border. *)
Definition in_box (x0 y0 x1 y1 px py : Z) : bool :=
  PIL.in_span x0 x1 px && PIL.in_span y0 y1 py.

(** The pixels of the box that lie on one of its four sides. *)
Definition on_border (x0 y0 x1 y1 px py : Z) : bool :=
  in_box x0 y0 x1 y1 px py
  && ((px =? x0) || (px =? x1) || (py =? y0) || (py =? y1)).

(** Two boolean tests over integer comparisons agree: read both as
    propositions and leave linear arithmetic. *)
Ltac bool_props :=
  repeat (rewrite andb_true_iff || rewrite orb_true_iff
          || rewrite Z.leb_le || rewrite Z.ltb_lt || rewrite Z.eqb_eq).

Ltac same_test := apply eq_true_iff_eq; bool_props; lia.

(** The controller as [__init__] leaves it on a panel that answers. *)
Definition booted : DisplayController :=
  mkController
    (SSD1306.mkDevice 128 64 (SSD1306.blank 128 64) [SSD1306.Init] true)
    (PIL.new 128 64).

(** The corners [draw_rectangle] hands to Pillow. *)
Definition corners (x y width height : pynum) : Z * Z * Z * Z :=
  (c_int x, c_int y, c_int (py_add x width), c_int (py_add y height)).

(** The closed box of a rectangle request. *)
Definition box (x y width height : pynum) (px py : Z) : bool :=
  let '(x0, y0, x1, y1) := corners x y width height in
  in_box x0 y0 x1 y1 px py.

(** The claim of a half-open fill region, as the specification words it. *)
Definition half_open_fill (self : DisplayController) (x y w h : Z) : Prop :=
  forall px py b,
    PIL.getpixel (_image self) px py = Some b ->
    PIL.getpixel (_image (draw_rectangle self x y w h true true)) px py =
    Some (if (x <=? px) && (px <? x + w) && (y <=? py) && (py <? y + h)
          then true else b).

(** The claim that a request draws nothing, as the specification words it. *)
Definition draws_nothing (self : DisplayController)
    (x y w h : pynum) (outline fill : bool) : Prop :=
  _image (draw_rectangle self x y w h outline fill) = _image self.

(** The controller after [clear_canvas()]: a fresh canvas and an empty
    frame in the driver. *)
Definition cleared (self : DisplayController) : DisplayController :=
  mkController (SSD1306.clear (_display self)) (_get_clean_canvas self).

(** The controller on a panel whose bus has stopped answering. *)
Definition unplugged : DisplayController :=
  mkController
    (SSD1306.mkDevice 128 64 (SSD1306.blank 128 64) [SSD1306.Init] false)
    (PIL.new 128 64).

(** The mark of one service, in the words of the specification: nothing
    for an active service, one unfilled outlined rectangle and the label
    for an inactive one, and for a failed one a second unfilled outlined
    rectangle inset by 2 pixels on each side. *)
Definition badge (st : status) (x y : Z) (label : string) : list call :=
  let outlined (x y w h : Z) := Rect x y w h true false in
  let caption := Text (x + 3) (y + 1) label None true in
  match st with
  | active => []
  | in_active => [outlined x y 23 13; caption]
  | FAILED =>
      [outlined x y 23 13;
       outlined (x + 2) (y + 2) (23 - 2 - 2) (13 - 2 - 2);
       caption]
  end.

(** A host on which every systemctl query answers 0, an idle machine. *)
Definition all_zero_host : env :=
  mkEnv (fun _ => []) 0 0 [] (fun _ _ => 0).

(** The bar of the core at position [i]. *)
Definition bar_at (x y bar_width bar_height padding : Z) (horizontal : bool)
    (i : Z) (load : Q) : call :=
  if horizontal
  then Rect x (y + i * (bar_height + 1 + padding))
            (PyFloat (load / 100 * inject_Z bar_width)) bar_height true true
  else Rect (x + i * (bar_width + 1 + padding)) y
            bar_width (PyFloat (load / 100 * inject_Z bar_height)) true true.

(** The pixels a drawing call may write: the closed box of a rectangle. *)
Definition covers (c : call) (px py : Z) : bool :=
  match c with
  | Rect x y w h _ _ => box x y w h px py
  | Text _ _ _ _ _ => false
  end.

(** A host on which unit A is active, B is stopped and C has failed. *)
Definition three_units_host : env :=
  mkEnv (fun _ => []) 0 0 []
    (fun verb unit =>
       if String.eqb verb "is-active"
       then (if String.eqb unit "A" then 0 else 3)
       else (if String.eqb unit "C" then 0 else 1)).

(** A host with two cores, at 10 and 99.5 per cent. *)
Definition two_core_host : env :=
  mkEnv (fun _ => []) (7323 # 2) 50 [10 # 1; 199 # 2]%Q (fun _ _ => 3).

(** Two decimal digits, tens first. *)
Definition two_digits (n : Z) : string :=
  String (digit (n / 10)) (String (digit (n mod 10)) "").

(** The time as the specification words it: hours without padding, then
    minutes and seconds with two digits each; the hours are not wrapped at
    24. *)
Definition H_MM_SS (total : Z) : string :=
  (fmt_d (total / 3600) ++ ":" ++ two_digits (total / 60 mod 60)
     ++ ":" ++ two_digits (total mod 60))%string.

(** A host whose uptime is given, with one idle core. *)
Definition host_up (uptime : Q) : env :=
  mkEnv (fun _ => []) uptime 0 [0%Q] (fun _ _ => 0).

(** The duration in whole microseconds, as [timedelta] stores it. *)
Definition round_half_us (q : Q) : Z :=
  datetime.round_to_long (q * inject_Z 1000000).

(** The day count [str] puts in front of the time. *)
Definition day_count (d : Z) : string :=
  let plural := if d =? 1 then ""%string else "s"%string in
  if d =? 0 then ""%string
  else (fmt_d d ++ " day" ++ plural ++ ", ")%string.

(** The number a string of decimal digits stands for, read after [acc]. *)
Fixpoint number (s : string) (acc : Z) : Z :=
  match s with
  | EmptyString => acc
  | String c s' => number s' (10 * acc + (Z.of_nat (nat_of_ascii c) - 48))
  end.



(** Rewrite every pixel of an image by a rule that sees its position and
    its value. *)
Definition repaint (rule : Z -> Z -> bool -> bool) (im : PIL.image)
  : PIL.image :=
  PIL.mkImage (PIL.im_width im) (PIL.im_height im)
    (mapi_from (fun y row => mapi_from (fun x b => rule x y b) 0 row)
       0 (PIL.im_rows im)).

(** What a rectangle request does to the pixel at [(px, py)]. *)
Definition rect_rule (x y w h : pynum) (outline fill : bool)
    (px py : Z) (b : bool) : bool :=
  let '(x0, y0, x1, y1) := corners x y w h in
  if in_box x0 y0 x1 y1 px py
  then (if on_border x0 y0 x1 y1 px py then outline else fill)
  else b.

(** The drawing calls of one turn of the demo loop on a panel [w] wide. *)
Definition demo_calls (e : env) (w : nat) : list call :=
  draw_system_uptime e 2 2 None true
  ++ draw_service_status e 2 20 demo_services
  ++ cpu_bars_loop 2 40 (Z.of_nat w - 1 - 2) 3 1 true (cpu_per_core e).



(** A reading of the clock is valid when its fields are in range. *)
Definition valid_clock (t : time.struct_time) : Prop :=
  0 <= time.tm_hour t <= 23 /\ 0 <= time.tm_min t <= 59
  /\ 0 <= time.tm_sec t <= 61.

Definition valid_date (t : time.struct_time) : Prop :=
  0 <= time.tm_year t /\ 1 <= time.tm_mon t <= 12
  /\ 1 <= time.tm_mday t <= 31.

(** Noon, 7 minutes and 9 seconds past, on 4 November 2026. *)
Definition a_clock : time.struct_time :=
  time.mkTime 2026 11 4 12 7 9 2 308 0.


(** Where a bar starts and ends along the axis its load scales. *)
Definition load_axis (horizontal : bool) (c : call) : Z * Z :=
  match c with
  | Rect x y w h _ _ =>
      if horizontal then (c_int x, c_int (py_add x w))
      else (c_int y, c_int (py_add y h))
  | Text _ _ _ _ _ => (0, 0)
  end.

(** A host with a single core at the given load. *)
Definition one_core_host (load : Q) : env :=
  mkEnv (fun _ => []) 0 0 [load] (fun _ _ => 0).

(* ================================================================== *)
(** * Properties *)

(** ** Lists with positions *)

Lemma mapi_from_length {A B : Type} (f : Z -> A -> B) (l : list A) (i : Z) :
  length (mapi_from f i l) = length l.
Proof.
  revert i; induction l as [|a t IH]; intros i; simpl; [reflexivity|].
  now rewrite IH.
Qed.

Lemma nth_error_mapi_from {A B : Type} (f : Z -> A -> B) (l : list A)
    (i : Z) (k : nat) :
  nth_error (mapi_from f i l) k =
  option_map (f (i + Z.of_nat k)) (nth_error l k).
Proof.
  revert i k; induction l as [|a t IH]; intros i k.
  - destruct k; reflexivity.
  - destruct k as [|k]; simpl.
    + now rewrite Z.add_0_r.
    + rewrite IH. do 2 f_equal. lia.
Qed.

Lemma mapi_from_id {A : Type} (f : Z -> A -> A) (l : list A) (i : Z) :
  (forall k a, nth_error l k = Some a -> f (i + Z.of_nat k) a = a) ->
  mapi_from f i l = l.
Proof.
  revert i; induction l as [|a t IH]; intros i H; simpl; [reflexivity|].
  f_equal.
  - specialize (H 0%nat a eq_refl). now rewrite Z.add_0_r in H.
  - apply IH. intros k b Hk.
    specialize (H (S k) b Hk).
    replace (i + 1 + Z.of_nat k) with (i + Z.of_nat (S k)) by lia.
    exact H.
Qed.

Lemma concat_mapi_from_cons {A B : Type} (f : Z -> A -> list B)
    (a : A) (l : list A) (i : Z) :
  concat (mapi_from f i (a :: l)) = f i a ++ concat (mapi_from f (i + 1) l).
Proof. reflexivity. Qed.

(** ** The canvas *)

Lemma in_span_iff (a b p : Z) :
  PIL.in_span a b p = true <-> Z.min a b <= p <= Z.max a b.
Proof. unfold PIL.in_span. bool_props. reflexivity. Qed.

Lemma in_box_iff (x0 y0 x1 y1 px py : Z) :
  in_box x0 y0 x1 y1 px py = true <->
  Z.min x0 x1 <= px <= Z.max x0 x1 /\ Z.min y0 y1 <= py <= Z.max y0 y1.
Proof. unfold in_box. now rewrite andb_true_iff, !in_span_iff. Qed.

Lemma ink_cascade (s1 s2 s3 s4 ink b : bool) :
  (if s4 then ink else if s3 then ink else if s2 then ink
   else if s1 then ink else b) =
  (if s1 || s2 || s3 || s4 then ink else b).
Proof. now destruct s1, s2, s3, s4. Qed.

Lemma getpixel_paint (sel : Z -> Z -> bool) (ink : bool) (im : PIL.image)
    (x y : Z) :
  PIL.getpixel (PIL.paint sel ink im) x y =
  option_map (fun b => if sel x y then ink else b) (PIL.getpixel im x y).
Proof.
  unfold PIL.getpixel, PIL.paint; simpl.
  destruct ((x <? 0) || (y <? 0)) eqn:E; [reflexivity|].
  apply orb_false_iff in E. destruct E as [Ex Ey].
  apply Z.ltb_ge in Ex, Ey.
  rewrite nth_error_mapi_from.
  destruct (nth_error (PIL.im_rows im) (Z.to_nat y)) as [row|]; simpl;
    [|reflexivity].
  rewrite nth_error_mapi_from. simpl.
  now rewrite !Z2Nat.id by assumption.
Qed.

Lemma getpixel_of_nth (im : PIL.image) (j k : nat) (row : list bool) (b : bool) :
  nth_error (PIL.im_rows im) k = Some row ->
  nth_error row j = Some b ->
  PIL.getpixel im (Z.of_nat j) (Z.of_nat k) = Some b.
Proof.
  intros Hrow Hb. unfold PIL.getpixel.
  replace ((Z.of_nat j <? 0) || (Z.of_nat k <? 0)) with false
    by (symmetry; apply orb_false_iff; split; apply Z.ltb_ge; lia).
  now rewrite !Nat2Z.id, Hrow.
Qed.

(** Painting where the selector misses every pixel of the canvas leaves
    the image as it is. *)
Lemma paint_outside (sel : Z -> Z -> bool) (ink : bool) (im : PIL.image) :
  (forall x y b, PIL.getpixel im x y = Some b -> sel x y = false) ->
  PIL.paint sel ink im = im.
Proof.
  intros H. destruct im as [w h rows]. unfold PIL.paint; simpl. f_equal.
  apply mapi_from_id. intros k row Hrow.
  apply mapi_from_id. intros j b Hb.
  rewrite !Z.add_0_l.
  now rewrite (H _ _ b (getpixel_of_nth (PIL.mkImage w h rows) j k row b Hrow Hb)).
Qed.

Lemma getpixel_paint_none (sel : Z -> Z -> bool) (ink : bool) (im : PIL.image)
    (x y : Z) :
  PIL.getpixel (PIL.paint sel ink im) x y = None <-> PIL.getpixel im x y = None.
Proof.
  rewrite getpixel_paint. destruct (PIL.getpixel im x y); simpl; split; congruence.
Qed.

Lemma getpixel_ImagingDrawRectangle (im : PIL.image) (x0 y0 x1 y1 : Z)
    (ink fill : bool) (px py : Z) :
  PIL.getpixel (PIL.ImagingDrawRectangle im x0 y0 x1 y1 ink fill) px py =
  option_map
    (fun b =>
       if (if fill then in_box x0 y0 x1 y1 px py
           else on_border x0 y0 x1 y1 px py)
       then ink else b)
    (PIL.getpixel im px py).
Proof.
  unfold PIL.ImagingDrawRectangle, PIL.hline, PIL.vline.
  destruct fill.
  - rewrite getpixel_paint.
    destruct (PIL.getpixel im px py) as [b|]; simpl; [|reflexivity].
    f_equal.
    replace (PIL.in_span (Z.min y0 y1) (Z.max y0 y1) py && PIL.in_span x0 x1 px)
      with (in_box x0 y0 x1 y1 px py); [reflexivity|].
    unfold in_box, PIL.in_span. same_test.
  - rewrite !getpixel_paint.
    destruct (PIL.getpixel im px py) as [b|]; simpl; [|reflexivity].
    f_equal. rewrite ink_cascade.
    match goal with
    | |- (if ?s then _ else _) = _ =>
        replace s with (on_border x0 y0 x1 y1 px py); [reflexivity|]
    end.
    unfold on_border, in_box, PIL.in_span. same_test.
Qed.

(** What [ImageDraw.rectangle] leaves in each pixel of the canvas. *)
Lemma getpixel_rectangle (im : PIL.image) (x0 y0 x1 y1 : Z)
    (outline fill : bool) (px py : Z) :
  PIL.getpixel (PIL.rectangle im x0 y0 x1 y1 outline fill) px py =
  option_map
    (fun b =>
       if in_box x0 y0 x1 y1 px py
       then (if on_border x0 y0 x1 y1 px py then outline else fill)
       else b)
    (PIL.getpixel im px py).
Proof.
  unfold PIL.rectangle.
  destruct (Bool.eqb outline fill) eqn:E.
  - apply eqb_prop in E. subst fill.
    rewrite getpixel_ImagingDrawRectangle.
    destruct (PIL.getpixel im px py) as [b|]; simpl; [|reflexivity].
    now destruct (in_box x0 y0 x1 y1 px py), (on_border x0 y0 x1 y1 px py).
  - rewrite !getpixel_ImagingDrawRectangle.
    destruct (PIL.getpixel im px py) as [b|]; simpl; [|reflexivity].
    f_equal. unfold on_border.
    destruct (in_box x0 y0 x1 y1 px py); simpl; [|reflexivity].
    now destruct ((px =? x0) || (px =? x1) || (py =? y0) || (py =? y1)).
Qed.

(** ** [draw_rectangle] *)

Lemma init_booted : __init__ true = Ok booted.
Proof. reflexivity. Qed.

Lemma getpixel_draw_rectangle (self : DisplayController)
    (x y w h : pynum) (outline fill : bool) (px py : Z) :
  PIL.getpixel (_image (draw_rectangle self x y w h outline fill)) px py =
  option_map
    (fun b =>
       if box x y w h px py
       then (if on_border (c_int x) (c_int y) (c_int (py_add x w))
                   (c_int (py_add y h)) px py
             then outline else fill)
       else b)
    (PIL.getpixel (_image self) px py).
Proof. unfold draw_rectangle, box, corners; simpl. apply getpixel_rectangle. Qed.

Lemma rectangle_outside (im : PIL.image) (x0 y0 x1 y1 : Z) (outline fill : bool) :
  (forall px py b, PIL.getpixel im px py = Some b ->
                   in_box x0 y0 x1 y1 px py = false) ->
  PIL.rectangle im x0 y0 x1 y1 outline fill = im.
Proof.
  intros H.
  assert (Hp : forall sel ink,
             (forall px py, sel px py = true ->
                            in_box x0 y0 x1 y1 px py = true) ->
             PIL.paint sel ink im = im).
  { intros sel ink Hs. apply paint_outside. intros px py b Hb.
    specialize (H px py b Hb).
    destruct (sel px py) eqn:E; [|reflexivity].
    rewrite (Hs _ _ E) in H. discriminate. }
  assert (Hfill : forall ink, PIL.ImagingDrawRectangle im x0 y0 x1 y1 ink true = im).
  { intros ink. unfold PIL.ImagingDrawRectangle. apply Hp.
    intros px py. unfold in_box, PIL.in_span. bool_props. lia. }
  assert (Hline : forall ink, PIL.ImagingDrawRectangle im x0 y0 x1 y1 ink false = im).
  { intros ink. unfold PIL.ImagingDrawRectangle, PIL.hline, PIL.vline.
    do 4 (rewrite Hp;
          [|intros px py; unfold in_box, PIL.in_span; bool_props; lia]).
    reflexivity. }
  unfold PIL.rectangle. rewrite Hfill.
  destruct (Bool.eqb outline fill); [reflexivity|apply Hline].
Qed.

(** C1, as stated, fails: on the blank 128x64 canvas
    [draw_rectangle(0, 0, 10, 5)] also lights column 10 and row 5, which
    lie outside the half-open region. *)
Lemma half_open_fill_fails : ~ half_open_fill booted 0 0 10 5.
Proof.
  intros H. specialize (H 10 0 false eq_refl).
  vm_compute in H. discriminate.
Qed.

(** C1 (amended): a call with [fill=true] and non-negative width and
    height sets every canvas pixel of the closed region
    [x, x+w] x [y, y+h] (its border takes the outline colour, which is
    foreground by default) and leaves every pixel outside it as it was. *)
Theorem draw_rectangle_fill_closed_box (self : DisplayController)
    (x y w h : Z) (outline : bool) (px py : Z) (b : bool) :
  0 <= w -> 0 <= h ->
  PIL.getpixel (_image self) px py = Some b ->
  PIL.getpixel (_image (draw_rectangle self x y w h outline true)) px py =
  Some (if (x <=? px) && (px <=? x + w) && (y <=? py) && (py <=? y + h)
        then (if (px =? x) || (px =? x + w) || (py =? y) || (py =? y + h)
              then outline else true)
        else b).
Proof.
  intros Hw Hh Hb.
  rewrite getpixel_draw_rectangle, Hb. unfold box, corners. simpl. f_equal.
  assert (Hbox : in_box x y (x + w) (y + h) px py =
                 (x <=? px) && (px <=? x + w) && (y <=? py) && (py <=? y + h)).
  { unfold in_box, PIL.in_span. same_test. }
  unfold on_border. rewrite Hbox.
  now destruct ((x <=? px) && (px <=? x + w) && (y <=? py) && (py <=? y + h)).
Qed.

Lemma draw_rectangle_fill_closed_box_witness :
  PIL.getpixel (_image (draw_rectangle booted 0 0 10 5 true true)) 10 5 =
  Some true.
Proof.
  exact (draw_rectangle_fill_closed_box booted 0 0 10 5 true 10 5 false
           ltac:(lia) ltac:(lia) eq_refl).
Defined.

(** C7, as stated, fails: a zero width and height still lights the pixel
    at the anchor. *)
Lemma zero_size_draws : ~ draws_nothing booted 5 5 0 0 true true.
Proof.
  unfold draws_nothing. intros H.
  apply (f_equal (fun im => PIL.getpixel im 5 5)) in H.
  vm_compute in H. discriminate.
Qed.

(** C7 (amended): whatever the signs of the width and the height, no pixel
    outside the closed box between the corners [(x, y)] and
    [(x+w, y+h)] changes, and the controller is left as it was when no
    pixel of the canvas lies in that box. *)
Theorem draw_rectangle_confined_to_box (self : DisplayController)
    (x y w h : pynum) (outline fill : bool) :
  (forall px py,
     box x y w h px py = false ->
     PIL.getpixel (_image (draw_rectangle self x y w h outline fill)) px py =
     PIL.getpixel (_image self) px py)
  /\ ((forall px py b,
         PIL.getpixel (_image self) px py = Some b ->
         box x y w h px py = false) ->
      draw_rectangle self x y w h outline fill = self).
Proof.
  split.
  - intros px py Hout. rewrite getpixel_draw_rectangle, Hout.
    now destruct (PIL.getpixel (_image self) px py).
  - intros Hmiss. destruct self as [d im]. unfold draw_rectangle; simpl.
    f_equal. apply rectangle_outside. exact Hmiss.
Qed.

(** ** [clear_canvas] and the traffic to the panel *)

Lemma nth_error_repeat_Z {A : Type} (a : A) (n : nat) (k : Z) :
  0 <= k ->
  nth_error (repeat a n) (Z.to_nat k) =
  if k <? Z.of_nat n then Some a else None.
Proof.
  intros Hk. destruct (Z.ltb_spec k (Z.of_nat n)).
  - apply nth_error_repeat. lia.
  - apply nth_error_None. rewrite repeat_length. lia.
Qed.

Lemma getpixel_new (w h : nat) (px py : Z) :
  PIL.getpixel (PIL.new w h) px py =
  if (0 <=? px) && (px <? Z.of_nat w) && (0 <=? py) && (py <? Z.of_nat h)
  then Some false else None.
Proof.
  unfold PIL.getpixel, PIL.new; simpl.
  destruct (Z.ltb_spec px 0), (Z.ltb_spec py 0); simpl;
    try (destruct (Z.leb_spec 0 px), (Z.leb_spec 0 py); simpl;
         try reflexivity; try lia;
         now rewrite ?andb_false_r).
  destruct (Z.leb_spec 0 px), (Z.leb_spec 0 py); try lia. simpl.
  rewrite nth_error_repeat_Z by assumption.
  destruct (py <? Z.of_nat h); [|now rewrite andb_false_r].
  rewrite nth_error_repeat_Z by assumption.
  now destruct (px <? Z.of_nat w).
Qed.

Lemma draw_rectangle_confined_to_box_witness :
  draw_rectangle booted 200 10 0 (-3) true true = booted.
Proof.
  apply (proj2 (draw_rectangle_confined_to_box booted 200 10 0 (-3) true true)).
  intros px py b Hb.
  change (_image booted) with (PIL.new 128 64) in Hb.
  rewrite getpixel_new in Hb.
  apply not_true_is_false. intros Hin.
  unfold box, corners in Hin. simpl in Hin. apply in_box_iff in Hin.
  destruct (px <? Z.of_nat 128) eqn:E.
  - apply Z.ltb_lt in E. lia.
  - rewrite ?E, ?andb_false_r in Hb. simpl in Hb. discriminate.
Defined.

Lemma perform_display (e : env) (self : DisplayController) (c : call) :
  _display (perform e self c) = _display self.
Proof. now destruct c. Qed.

Lemma perform_all_display (e : env) (cs : list call) (self : DisplayController) :
  _display (perform_all e self cs) = _display self.
Proof.
  unfold perform_all. revert self.
  induction cs as [|c cs IH]; intros self; simpl; [reflexivity|].
  now rewrite IH, perform_display.
Qed.

Lemma rectangle_size (im : PIL.image) (x0 y0 x1 y1 : Z) (outline fill : bool) :
  PIL.im_width (PIL.rectangle im x0 y0 x1 y1 outline fill) = PIL.im_width im
  /\ PIL.im_height (PIL.rectangle im x0 y0 x1 y1 outline fill) = PIL.im_height im.
Proof.
  unfold PIL.rectangle, PIL.ImagingDrawRectangle, PIL.hline, PIL.vline.
  destruct (Bool.eqb outline fill); now split.
Qed.

Lemma perform_size (e : env) (self : DisplayController) (c : call) :
  PIL.im_width (_image (perform e self c)) = PIL.im_width (_image self)
  /\ PIL.im_height (_image (perform e self c)) = PIL.im_height (_image self).
Proof.
  destruct c; simpl; [apply rectangle_size|now split].
Qed.

Lemma perform_all_size (e : env) (cs : list call) (self : DisplayController) :
  PIL.im_width (_image (perform_all e self cs)) = PIL.im_width (_image self)
  /\ PIL.im_height (_image (perform_all e self cs)) = PIL.im_height (_image self).
Proof.
  unfold perform_all. revert self.
  induction cs as [|c cs IH]; intros self; simpl; [now split|].
  destruct (IH (perform e self c)) as [Hw Hh].
  destruct (perform_size e self c) as [Hw' Hh'].
  split; congruence.
Qed.

Lemma perform_all_app (e : env) (self : DisplayController) (cs ds : list call) :
  perform_all e (perform_all e self cs) ds = perform_all e self (cs ++ ds).
Proof. unfold perform_all. now rewrite fold_left_app. Qed.

(** [render_canvas()] on a canvas of the size of the panel. *)
Lemma render_canvas_sized (self : DisplayController) :
  PIL.im_width (_image self) = SSD1306.width (_display self) ->
  PIL.im_height (_image self) = SSD1306.height (_display self) ->
  render_canvas self =
  if SSD1306.bus_up (_display self)
  then Ok (mkController
             (SSD1306.mkDevice
                (SSD1306.width (_display self)) (SSD1306.height (_display self))
                (PIL.im_rows (_image self))
                (SSD1306.wire (_display self)
                   ++ [SSD1306.Frame (PIL.im_rows (_image self))])
                (SSD1306.bus_up (_display self)))
             (_image self))
  else Raise IOError.
Proof.
  intros Hw Hh. unfold render_canvas, SSD1306.image.
  rewrite Hw, Hh, !Nat.eqb_refl. simpl.
  unfold SSD1306.display, SSD1306.write. simpl.
  now destruct (SSD1306.bus_up (_display self)).
Qed.

(** C2: [clear_canvas()] always returns; the canvas it leaves has the
    width and height of the panel, which it does not change, and every
    pixel of it is background; clearing a second time changes nothing, and
    so does clearing after any sequence of drawing calls. *)
Theorem clear_canvas_blank (e : env) (self : DisplayController) :
  clear_canvas false self = Ok (cleared self)
  /\ (get_display_width (cleared self) = get_display_width self
      /\ get_display_height (cleared self) = get_display_height self
      /\ PIL.im_width (_image (cleared self)) = get_display_width self
      /\ PIL.im_height (_image (cleared self)) = get_display_height self
      /\ length (PIL.im_rows (_image (cleared self))) = get_display_height self
      /\ Forall (fun row => length row = get_display_width self)
           (PIL.im_rows (_image (cleared self))))
  /\ (forall px py,
        PIL.getpixel (_image (cleared self)) px py =
        if (0 <=? px) && (px <? Z.of_nat (get_display_width self))
           && (0 <=? py) && (py <? Z.of_nat (get_display_height self))
        then Some false else None)
  /\ clear_canvas false (cleared self) = Ok (cleared self)
  /\ (forall cs : list call,
        clear_canvas false (perform_all e self cs) = Ok (cleared self)).
Proof.
  split; [reflexivity|].
  split.
  - repeat split; try reflexivity.
    + simpl. apply repeat_length.
    + simpl. apply Forall_forall. intros row Hin.
      apply repeat_spec in Hin. subst row. apply repeat_length.
  - split; [intros px py; apply getpixel_new|].
    split; [reflexivity|].
    intros cs. unfold clear_canvas, cleared, _get_clean_canvas,
      get_display_width, get_display_height.
    now rewrite perform_all_display.
Qed.

(** The scenario of the specification: clear, draw a filled rectangle,
    clear again; the canvas is blank and 128 by 64. *)
Lemma clear_draw_clear :
  clear_canvas false (draw_rectangle (cleared booted) 0 0 10 5 true true) =
  Ok (cleared booted)
  /\ _image (cleared booted) = PIL.new 128 64.
Proof. split; reflexivity. Qed.

(** C9: in a turn of the loop the first step, [clear_canvas()], succeeds
    and sends nothing to the panel; no drawing call touches the driver; the
    turn as a whole sends exactly one frame, the canvas, in its last step
    [render_canvas()], or stops with [IOError] there when the bus is down.
    Besides [render_canvas()] only [clear_canvas(True)], used on exit,
    sends a frame. *)
Theorem cycle_device_io (e : env) (controller : DisplayController) :
  (exists c1, clear_canvas false controller = Ok c1
              /\ SSD1306.wire (_display c1) = SSD1306.wire (_display controller))
  /\ (forall cs, _display (perform_all e controller cs) = _display controller)
  /\ match cycle e controller with
     | Ok c' =>
         SSD1306.wire (_display c') =
         SSD1306.wire (_display controller)
           ++ [SSD1306.Frame (PIL.im_rows (_image c'))]
     | Raise err =>
         err = IOError /\ SSD1306.bus_up (_display controller) = false
     end
  /\ (forall c', render_canvas controller = Ok c' ->
        SSD1306.wire (_display c') =
        SSD1306.wire (_display controller)
          ++ [SSD1306.Frame (PIL.im_rows (_image controller))])
  /\ (forall c', clear_canvas true controller = Ok c' ->
        SSD1306.wire (_display c') =
        SSD1306.wire (_display controller)
          ++ [SSD1306.Frame
                (SSD1306.blank (get_display_width controller)
                   (get_display_height controller))]).
Proof.
  split; [exists (cleared controller); now split|].
  split; [intros cs; apply perform_all_display|].
  split; [|split].
  - assert (Hcycle : exists cs,
              cycle e controller =
              render_canvas (perform_all e (cleared controller) cs)).
    { exists (draw_system_uptime e 2 2 None true
              ++ draw_service_status e 2 20 demo_services
              ++ cpu_bars_loop 2 40
                   (Z.of_nat (get_display_width controller) - 1 - 2) 3 1 true
                   (cpu_per_core e)).
      unfold cycle, clear_canvas, draw_cpu_bars, py_iter, psutil.cpu_percent,
        bind.
      fold (cleared controller).
      unfold get_display_width. rewrite !perform_all_display.
      change (SSD1306.width (_display (cleared controller)))
        with (SSD1306.width (_display controller)).
      rewrite !perform_all_app, <- ?app_assoc. reflexivity. }
    destruct Hcycle as [cs ->].
    destruct (perform_all_size e cs (cleared controller)) as [Hw Hh].
    rewrite render_canvas_sized
      by (rewrite perform_all_display; first [rewrite Hw|rewrite Hh]; reflexivity).
    rewrite perform_all_display. simpl.
    destruct (SSD1306.bus_up (_display controller)); simpl; [reflexivity|now split].
  - intros c' H. unfold render_canvas, SSD1306.image in H.
    destruct ((PIL.im_width (_image controller) =? SSD1306.width (_display controller))%nat
              && (PIL.im_height (_image controller) =? SSD1306.height (_display controller))%nat);
      [|discriminate].
    simpl in H. unfold SSD1306.display, SSD1306.write in H. simpl in H.
    destruct (SSD1306.bus_up (_display controller)); [|discriminate].
    simpl in H. injection H as <-. reflexivity.
  - intros c' H. unfold clear_canvas, SSD1306.display, SSD1306.write in H.
    simpl in H.
    destruct (SSD1306.bus_up (_display controller)); [|discriminate].
    simpl in H. injection H as <-. reflexivity.
Qed.

Lemma cycle_device_io_witness :
  match render_canvas booted with
  | Ok c' =>
      SSD1306.wire (_display c') =
      SSD1306.wire (_display booted)
        ++ [SSD1306.Frame (PIL.im_rows (_image booted))]
  | Raise _ => False
  end.
Proof.
  pose proof (proj1 (proj2 (proj2 (proj2
                (cycle_device_io (mkEnv (fun _ => []) 0 0 [] (fun _ _ => 0))
                   booted))))) as H.
  destruct (render_canvas booted) as [c'|err] eqn:E.
  - apply H. reflexivity.
  - vm_compute in E. discriminate.
Defined.

(** ** [signal_handler] *)

(** C8, as stated, fails: when the clear of the panel fails, nothing
    catches the error and the process does not end with status 0. *)
Lemma cancel_on_dead_bus :
  clear_canvas true unplugged = Raise IOError
  /\ signal_handler unplugged = Uncaught IOError
  /\ exit_status (signal_handler unplugged) <> 0.
Proof. repeat split. discriminate. Qed.

(** C8 (amended): on the cancellation signal the handler clears the canvas
    and the panel; when the panel takes the blank frame, the process exits
    with status 0, and when it does not, the [IOError] escapes the handler
    and the status is 1. *)
Theorem signal_handler_exit (controller : DisplayController) :
  signal_handler controller =
  (if SSD1306.bus_up (_display controller)
   then Exited 0
          (mkController
             (SSD1306.mkDevice
                (get_display_width controller) (get_display_height controller)
                (SSD1306.blank (get_display_width controller)
                   (get_display_height controller))
                (SSD1306.wire (_display controller)
                   ++ [SSD1306.Frame
                         (SSD1306.blank (get_display_width controller)
                            (get_display_height controller))])
                true)
             (_get_clean_canvas controller))
   else Uncaught IOError)
  /\ exit_status (signal_handler controller) =
     (if SSD1306.bus_up (_display controller) then 0 else 1).
Proof.
  unfold signal_handler, clear_canvas, SSD1306.display, SSD1306.write. simpl.
  destruct (SSD1306.bus_up (_display controller)) eqn:E; simpl; now split.
Qed.

(** ** [draw_service_status] *)

Lemma draw_service_status_cons (e : env) (x y : Z) (service name : string)
    (rest : list (string * string)) :
  draw_service_status e x y ((service, name) :: rest) =
  badge (get_service_status e service) x y name
  ++ draw_service_status e (x + 25) y rest.
Proof.
  simpl. now destruct (get_service_status e service).
Qed.

(** C3: the widget draws, for the service at position [i] of the mapping,
    the mark of its status with its top-left corner at [x + 25 * i]:
    the cursor moves on by 25 pixels after every service, whatever its
    status.  The inner rectangle of a failed service spans
    [x+2 .. x+23-2] by [y+2 .. y+13-2]. *)
Theorem service_status_marks (e : env) (x y : Z)
    (services : list (string * string)) :
  draw_service_status e x y services =
  concat
    (mapi_from
       (fun i '(service, name) =>
          badge (get_service_status e service) (x + 25 * i) y name)
       0 services)
  /\ (forall x' y', corners (x' + 2) (y' + 2) (rect_width - 4) (rect_height - 4)
                    = (x' + 2, y' + 2, x' + 23 - 2, y' + 13 - 2)).
Proof.
  split.
  - assert (H : forall k,
               draw_service_status e (x + 25 * k) y services =
               concat
                 (mapi_from
                    (fun i '(service, name) =>
                       badge (get_service_status e service) (x + 25 * i) y name)
                    k services)).
    { induction services as [|[service name] rest IH]; intros k;
        [reflexivity|].
      rewrite draw_service_status_cons, concat_mapi_from_cons. f_equal.
      rewrite <- IH. f_equal. lia. }
    specialize (H 0). now rewrite Z.mul_0_r, Z.add_0_r in H.
  - intros x' y'. unfold corners, rect_width, rect_height. simpl.
    replace (x' + 2 + 19) with (x' + 23 - 2) by lia.
    replace (y' + 2 + 9) with (y' + 13 - 2) by lia.
    reflexivity.
Qed.

(** C10: a service that systemctl reports both failed and active is
    classified as failed, and gets the double outline and its label. *)
Theorem failed_takes_precedence (e : env) (service name : string) (x y : Z)
    (rest : list (string * string)) :
  systemctl e "is-failed" service = 0 ->
  systemctl e "is-active" service = 0 ->
  get_service_status e service = FAILED
  /\ draw_service_status e x y ((service, name) :: rest) =
     [ Rect x y 23 13 true false;
       Rect (x + 2) (y + 2) 19 9 true false;
       Text (x + 3) (y + 1) name None true ]
     ++ draw_service_status e (x + 25) y rest.
Proof.
  intros Hf Ha.
  assert (Hs : get_service_status e service = FAILED).
  { unfold get_service_status. now rewrite Hf. }
  split; [exact Hs|].
  now rewrite draw_service_status_cons, Hs.
Qed.

Lemma failed_takes_precedence_witness :
  get_service_status all_zero_host "nginx.service" = FAILED
  /\ draw_service_status all_zero_host 2 20 [("nginx.service", "NGX")]%string =
     [ Rect 2 20 23 13 true false;
       Rect (2 + 2) (20 + 2) 19 9 true false;
       Text (2 + 3) (20 + 1) "NGX" None true ]
     ++ draw_service_status all_zero_host (2 + 25) 20 [].
Proof.
  exact (failed_takes_precedence all_zero_host "nginx.service" "NGX" 2 20 []
           eq_refl eq_refl).
Defined.

(** The scenario of the specification: A active, B inactive, C failed,
    drawn from x = 2, y = 20. *)
Lemma three_units_scenario :
  draw_service_status three_units_host 2 20
    [("A", "A"); ("B", "B"); ("C", "C")]%string =
  [ Rect 27 20 23 13 true false; Text 30 21 "B" None true;
    Rect 52 20 23 13 true false; Rect 54 22 19 9 true false;
    Text 55 21 "C" None true ].
Proof. reflexivity. Qed.

(** ** [draw_cpu_bars] *)

(** C5 fails on the code: with [percpu=False] psutil hands back one float,
    the [for] statement cannot iterate over it, and the widget ends in a
    [TypeError] before it has drawn anything. *)
Theorem draw_cpu_bars_aggregate_raises (e : env)
    (x y bar_width bar_height padding : Z) (horizontal : bool) :
  draw_cpu_bars e x y bar_width bar_height padding horizontal false =
  Raise TypeError.
Proof. reflexivity. Qed.

Lemma cpu_bars_loop_bar_at (x y bar_width bar_height padding : Z)
    (horizontal : bool) (loads : list Q) (k : Z) :
  cpu_bars_loop
    (if horizontal then x else x + k * (bar_width + 1 + padding))
    (if horizontal then y + k * (bar_height + 1 + padding) else y)
    bar_width bar_height padding horizontal loads =
  mapi_from (bar_at x y bar_width bar_height padding horizontal) k loads.
Proof.
  revert k. induction loads as [|load rest IH]; intros k; [reflexivity|].
  specialize (IH (k + 1)).
  destruct horizontal; simpl; f_equal; rewrite <- IH; f_equal; lia.
Qed.

Lemma bars_apart (a s t i j p : Z) :
  0 <= t -> t < s -> i <> j -> 0 <= i -> 0 <= j ->
  PIL.in_span (a + i * s) (a + i * s + t) p = true ->
  PIL.in_span (a + j * s) (a + j * s + t) p = false.
Proof.
  intros Ht Hs Hij Hi Hj Hp.
  apply in_span_iff in Hp.
  apply not_true_is_false. intros Hq. apply in_span_iff in Hq.
  rewrite Z.min_l, Z.max_r in Hp, Hq by lia.
  assert (i < j \/ j < i) as [Hlt|Hlt] by lia.
  - assert ((i + 1) * s <= j * s) by (apply Z.mul_le_mono_nonneg_r; lia). lia.
  - assert ((j + 1) * s <= i * s) by (apply Z.mul_le_mono_nonneg_r; lia). lia.
Qed.

(** C6: with [percpu=True] the widget draws one filled rectangle per
    sampled core, in the order of the sample; the bar of core [i] is
    anchored [i] times [thickness + 1 + padding] further along the stacking
    axis (y when horizontal, x when vertical) than the first; and with a
    non-negative thickness and padding no pixel belongs to two bars. *)
Theorem cpu_bars_per_core (e : env)
    (x y bar_width bar_height padding : Z) (horizontal : bool) :
  exists bars,
    draw_cpu_bars e x y bar_width bar_height padding horizontal true = Ok bars
    /\ length bars = length (cpu_per_core e)
    /\ (forall i load,
          nth_error (cpu_per_core e) i = Some load ->
          nth_error bars i =
          Some (if horizontal
                then Rect x (y + Z.of_nat i * (bar_height + 1 + padding))
                       (PyFloat (load / 100 * inject_Z bar_width)) bar_height
                       true true
                else Rect (x + Z.of_nat i * (bar_width + 1 + padding)) y
                       bar_width (PyFloat (load / 100 * inject_Z bar_height))
                       true true))
    /\ (0 <= (if horizontal then bar_height else bar_width) ->
        0 <= padding ->
        forall i j bi bj px py,
          i <> j ->
          nth_error bars i = Some bi ->
          nth_error bars j = Some bj ->
          covers bi px py = true ->
          covers bj px py = false).
Proof.
  exists (mapi_from (bar_at x y bar_width bar_height padding horizontal) 0
            (cpu_per_core e)).
  split.
  - unfold draw_cpu_bars, psutil.cpu_percent, py_iter, bind.
    rewrite <- cpu_bars_loop_bar_at.
    now destruct horizontal; rewrite Z.mul_0_l, Z.add_0_r.
  - split; [apply mapi_from_length|].
    split.
    + intros i load Hi. now rewrite nth_error_mapi_from, Hi.
    + intros Ht Hp i j bi bj px py Hij Hbi Hbj Hc.
      rewrite nth_error_mapi_from in Hbi, Hbj.
      destruct (nth_error (cpu_per_core e) i) as [li|]; [|discriminate].
      destruct (nth_error (cpu_per_core e) j) as [lj|]; [|discriminate].
      simpl in Hbi, Hbj. injection Hbi as <-. injection Hbj as <-.
      assert (Hne : Z.of_nat i <> Z.of_nat j) by lia.
      unfold bar_at in *. destruct horizontal;
        unfold covers, box, corners, in_box in *; simpl in *;
        apply andb_true_iff in Hc; destruct Hc as [Hx Hy].
      * rewrite (bars_apart y (bar_height + 1 + padding) bar_height
                   (Z.of_nat i) (Z.of_nat j) py) by (assumption || lia).
        apply andb_false_r.
      * now rewrite (bars_apart x (bar_width + 1 + padding) bar_width
                       (Z.of_nat i) (Z.of_nat j) px) by (assumption || lia).
Qed.

Lemma cpu_bars_per_core_witness :
  exists bars,
    draw_cpu_bars two_core_host 2 40 125 3 1 true true = Ok bars
    /\ length bars = 2%nat
    /\ (forall i j bi bj px py,
          i <> j ->
          nth_error bars i = Some bi ->
          nth_error bars j = Some bj ->
          covers bi px py = true ->
          covers bj px py = false).
Proof.
  destruct (cpu_bars_per_core two_core_host 2 40 125 3 1 true)
    as [bars [Hok [Hlen [_ Hapart]]]].
  exists bars. split; [exact Hok|]. split; [exact Hlen|].
  apply Hapart; simpl; lia.
Defined.

(** ** [draw_system_uptime] *)

Lemma string_length_app (s t : string) :
  String.length (s ++ t) = (String.length s + String.length t)%nat.
Proof. induction s as [|c s IH]; simpl; [reflexivity|now rewrite IH]. Qed.

Lemma substring_prefix (s t : string) :
  substring 0 (String.length s) (s ++ t) = s.
Proof.
  induction s as [|c s IH]; simpl.
  - now destruct t.
  - now rewrite IH.
Qed.

(** [(s + t)[:-k]] is [s] when [t] has [k] characters. *)
Lemma py_slice_to_drops (s t : string) (k : Z) :
  0 < k -> Z.of_nat (String.length t) = k ->
  py_slice_to (s ++ t) (- k) = s.
Proof.
  intros Hk Ht. unfold py_slice_to.
  replace (- k <? 0) with true by (symmetry; apply Z.ltb_lt; lia).
  rewrite string_length_app.
  replace (Z.to_nat (Z.max 0 (Z.of_nat (String.length s + String.length t) + - k)))
    with (String.length s) by lia.
  apply substring_prefix.
Qed.

Lemma zeros_length (k : nat) : String.length (zeros k) = k.
Proof. induction k as [|k IH]; simpl; [reflexivity|now rewrite IH]. Qed.

Lemma digits_aux_length (fuel : nat) :
  forall (k : nat) (n : Z) (acc : string),
    (1 <= k)%nat -> 0 <= n < 10 ^ Z.of_nat k ->
    (String.length (digits_aux fuel n acc) <= k + String.length acc)%nat.
Proof.
  induction fuel as [|fuel IH]; intros k n acc Hk Hn; simpl; [lia|].
  destruct (Z.eqb_spec (n / 10) 0) as [Hz|Hnz]; simpl; [lia|].
  assert (Hn10 : 10 <= n).
  { destruct (Z.lt_ge_cases n 10) as [Hlt|]; [|assumption].
    exfalso. apply Hnz. apply Z.div_small. lia. }
  destruct k as [|[|k]]; [lia| simpl in Hn; lia |].
  specialize (IH (S k) (n / 10) (String (digit (n mod 10)) acc)).
  simpl String.length in IH.
  assert (0 <= n / 10 < 10 ^ Z.of_nat (S k)).
  { split; [apply Z.div_pos; lia|].
    apply Z.div_lt_upper_bound; [lia|].
    replace (Z.of_nat (S (S k))) with (Z.of_nat (S k) + 1) in Hn by lia.
    rewrite Z.pow_add_r, Z.pow_1_r in Hn by lia. lia. }
  specialize (IH ltac:(lia) H). lia.
Qed.

Lemma fmt_0d_length (w : nat) (n : Z) :
  (1 <= w)%nat -> 0 <= n < 10 ^ Z.of_nat w ->
  String.length (fmt_0d w n) = w.
Proof.
  intros Hw Hn. unfold fmt_0d.
  replace (n <? 0) with false by (symmetry; apply Z.ltb_ge; lia).
  rewrite string_length_app, zeros_length.
  pose proof (digits_aux_length (S (Z.to_nat (Z.log2 n))) w n "" Hw Hn) as H.
  fold (digits n) in H. simpl in H. lia.
Qed.

Lemma fmt_02d_two_digits (n : Z) :
  0 <= n < 100 -> fmt_0d 2 n = two_digits n.
Proof.
  intros Hn.
  assert (Hall : forallb (fun k => String.eqb (fmt_0d 2 (Z.of_nat k))
                                     (two_digits (Z.of_nat k)))
                   (seq 0 100) = true) by (vm_compute; reflexivity).
  rewrite forallb_forall in Hall.
  specialize (Hall (Z.to_nat n)).
  rewrite Z2Nat.id in Hall by lia.
  apply String.eqb_eq, Hall, in_seq. lia.
Qed.

(** C4, as stated, fails: after 25 hours, 1 minute and 1.5 seconds the
    widget shows a day count, where the claim has ["25:01:01"]. *)
Lemma uptime_beyond_a_day :
  get_system_uptime (host_up (180123 # 2)) = "1 day, 1:01:01"%string
  /\ H_MM_SS (Qfloor (180123 # 2)) = "25:01:01"%string
  /\ get_system_uptime (host_up (180123 # 2)) <> H_MM_SS (Qfloor (180123 # 2)).
Proof.
  split; [vm_compute; reflexivity|].
  split; [vm_compute; reflexivity|].
  vm_compute. discriminate.
Qed.

(** On a whole number of seconds [str] has no fraction to cut, and the
    slice [[:-7]] removes the time itself: 3661.00 seconds give the empty
    string, and ten hours give ["1"]. *)
Lemma uptime_whole_seconds :
  get_system_uptime (host_up 3661) = ""%string
  /\ get_system_uptime (host_up 36000) = "1"%string.
Proof. split; vm_compute; reflexivity. Qed.

(** Rounding to microseconds keeps the whole seconds, unless it rounds
    up to the next second and leaves no fraction. *)
Lemma round_micro_seconds (q : Q) :
  (0 <= q)%Q ->
  round_half_us q mod 1000000 <> 0 ->
  round_half_us q / 1000000 = Qfloor q.
Proof.
  unfold round_half_us, datetime.round_to_long. intros Hq Hus.
  assert (Hnn : (0 <= q * inject_Z 1000000)%Q).
  { apply Qmult_le_0_compat; [assumption|discriminate]. }
  apply Qle_bool_iff in Hnn. rewrite Hnn in *.
  set (us := Qfloor (q * inject_Z 1000000 + (1 # 2))) in *.
  set (N := Qfloor q).
  pose proof (Qfloor_le q) as Hlo. pose proof (Qlt_floor q) as Hhi.
  fold N in Hlo, Hhi.
  assert (Hlow : N * 1000000 <= us).
  { rewrite <- (Qfloor_Z (N * 1000000)). apply Qfloor_resp_le.
    rewrite inject_Z_mult. 
    assert (inject_Z N * inject_Z 1000000 <= q * inject_Z 1000000)%Q
      by (apply Qmult_le_compat_r; [assumption|discriminate]).
    lra. }
  assert (Hupp : us < (N + 1) * 1000000 + 1).
  { rewrite Zlt_Qlt.
    pose proof (Qfloor_le (q * inject_Z 1000000 + (1 # 2))) as Hf.
    fold us in Hf.
    rewrite inject_Z_plus, inject_Z_mult.
    assert (q * inject_Z 1000000 < inject_Z (N + 1) * inject_Z 1000000)%Q
      by (apply Qmult_lt_compat_r; [reflexivity|assumption]).
    change (inject_Z 1) with 1%Q. lra. }
  assert (Hne : us <> (N + 1) * 1000000).
  { intros Heq. apply Hus. rewrite Heq. apply Z_mod_mult. }
  symmetry. apply (Z.div_unique us 1000000 N (us - N * 1000000)); lia.
Qed.

Lemma string_app_assoc (a b c : string) :
  ((a ++ b) ++ c)%string = (a ++ b ++ c)%string.
Proof. induction a as [|ch a IH]; simpl; [reflexivity|now rewrite IH]. Qed.

(** [str(td)[:-7]] for a normalised duration with a fraction: the slice
    removes the point and the six digits after it. *)
Lemma str_without_fraction (td : datetime.timedelta) :
  0 <= datetime.days td ->
  0 <= datetime.seconds td < 86400 ->
  0 < datetime.microseconds td < 1000000 ->
  py_slice_to (datetime.str td) (-7) =
  (day_count (datetime.days td) ++ H_MM_SS (datetime.seconds td))%string.
Proof.
  destruct td as [d s us]; simpl. intros Hd Hs Hus.
  unfold datetime.str.
  cbn [datetime.days datetime.seconds datetime.microseconds]. cbv zeta.
  replace (us =? 0) with false by (symmetry; apply Z.eqb_neq; lia).
  assert (Htime : (fmt_d (s / 60 / 60) ++ ":" ++ fmt_0d 2 (s / 60 mod 60)
                     ++ ":" ++ fmt_0d 2 (s mod 60))%string = H_MM_SS s).
  { unfold H_MM_SS.
    rewrite Z.div_div by lia.
    rewrite !fmt_02d_two_digits; [reflexivity| |].
    - pose proof (Z.mod_pos_bound s 60). lia.
    - pose proof (Z.mod_pos_bound (s / 60) 60). lia. }
  rewrite Htime.
  rewrite Z.abs_eq by assumption.
  match goal with
  | |- py_slice_to (?pre ++ _) _ = _ =>
      replace pre with (day_count d ++ H_MM_SS s)%string
  end.
  2:{ unfold day_count. destruct (d =? 0); [reflexivity|].
      now rewrite !string_app_assoc. }
  apply (py_slice_to_drops _ _ 7); [lia|].
  change (String.length ("." ++ fmt_0d 6 us))
    with (S (String.length (fmt_0d 6 us))).
  rewrite fmt_0d_length; [reflexivity|lia|].
  change (10 ^ Z.of_nat 6) with 1000000. lia.
Qed.

(** C4 (amended): for a non-negative uptime that leaves a fraction of a
    second after rounding to microseconds, the widget shows the whole
    seconds elapsed within the current day as [H:MM:SS], hours unpadded and
    minutes and seconds with two digits, without the fraction; a day count
    ("1 day, ", "2 days, ", ...) comes first once a day has passed, and
    below one day the text is the [H:MM:SS] of the whole uptime. *)
Theorem uptime_format (e : env) :
  (0 <= proc_uptime e)%Q ->
  datetime.microseconds (datetime.of_seconds (proc_uptime e)) <> 0 ->
  get_system_uptime e =
  (day_count (Qfloor (proc_uptime e) / 86400)
     ++ H_MM_SS (Qfloor (proc_uptime e) mod 86400))%string
  /\ (Qfloor (proc_uptime e) < 86400 ->
      get_system_uptime e = H_MM_SS (Qfloor (proc_uptime e))).
Proof.
  intros Hq Hus.
  set (q := proc_uptime e) in *.
  assert (Hsec : round_half_us q / 1000000 = Qfloor q)
    by (apply round_micro_seconds; assumption).
  assert (HN : 0 <= Qfloor q).
  { rewrite <- (Qfloor_Z 0). now apply Qfloor_resp_le. }
  assert (Hmain : get_system_uptime e =
                  (day_count (Qfloor q / 86400)
                     ++ H_MM_SS (Qfloor q mod 86400))%string).
  { unfold get_system_uptime. fold q.
    rewrite str_without_fraction.
    - unfold datetime.of_seconds; simpl. fold (round_half_us q).
      now rewrite Hsec.
    - unfold datetime.of_seconds; simpl. fold (round_half_us q).
      rewrite Hsec. apply Z.div_pos; lia.
    - unfold datetime.of_seconds; simpl. apply Z.mod_pos_bound. lia.
    - unfold datetime.of_seconds in *; simpl in *.
      pose proof (Z.mod_pos_bound
                    (datetime.round_to_long (q * inject_Z 1000000)) 1000000).
      lia. }
  split; [exact Hmain|].
  intros Hday. rewrite Hmain.
  rewrite Z.div_small, Z.mod_small by lia. reflexivity.
Qed.

Lemma uptime_format_witness :
  get_system_uptime (host_up (7323 # 2)) =
  (day_count (Qfloor (7323 # 2) / 86400)
     ++ H_MM_SS (Qfloor (7323 # 2) mod 86400))%string
  /\ (Qfloor (7323 # 2) < 86400 ->
      get_system_uptime (host_up (7323 # 2)) = H_MM_SS (Qfloor (7323 # 2))).
Proof.
  apply (uptime_format (host_up (7323 # 2))).
  - vm_compute. discriminate.
  - vm_compute. discriminate.
Defined.

(** The boundary values of the specification, each half a second in. *)
Lemma uptime_boundaries :
  get_system_uptime (host_up (1 # 2)) = "0:00:00"%string
  /\ get_system_uptime (host_up (119 # 2)) = "0:00:59"%string
  /\ get_system_uptime (host_up (7201 # 2)) = "1:00:00"%string
  /\ get_system_uptime (host_up (172799 # 2)) = "23:59:59"%string.
Proof. repeat split; vm_compute; reflexivity. Qed.

(** *** [digits] prints every digit: reading the digits back gives the
    number, so the bound on the recursion never cuts a number short. *)

Lemma digit_value (d : Z) :
  0 <= d < 10 -> Z.of_nat (nat_of_ascii (digit d)) - 48 = d.
Proof.
  intros Hd.
  assert (H : d = 0 \/ d = 1 \/ d = 2 \/ d = 3 \/ d = 4 \/ d = 5 \/ d = 6
              \/ d = 7 \/ d = 8 \/ d = 9) by lia.
  repeat (destruct H as [->|H]; [reflexivity|]). now subst d.
Qed.

Lemma digits_aux_number (fuel : nat) :
  forall (n : Z) (acc : string),
    0 <= n < 2 ^ Z.of_nat fuel ->
    number (digits_aux fuel n acc) 0 = number acc n.
Proof.
  induction fuel as [|fuel IH]; intros n acc Hn.
  - cbn [digits_aux]. change (2 ^ Z.of_nat 0) with 1 in Hn.
    now replace n with 0 by lia.
  - cbn [digits_aux].
    pose proof (Z.mod_pos_bound n 10 ltac:(lia)) as Hm.
    pose proof (Z.div_mod n 10 ltac:(lia)) as Hdm.
    destruct (Z.eqb_spec (n / 10) 0) as [Hz|Hnz].
    + cbn [number]. rewrite digit_value by assumption. f_equal. lia.
    + rewrite IH.
      * cbn [number]. rewrite digit_value by assumption. f_equal. lia.
      * split; [apply Z.div_pos; lia|].
        apply Z.div_lt_upper_bound; [lia|].
        rewrite Nat2Z.inj_succ, Z.pow_succ_r in Hn by lia. lia.
Qed.

Lemma digits_number (n : Z) : 0 <= n -> number (digits n) 0 = n.
Proof.
  intros Hn. unfold digits. rewrite digits_aux_number; [reflexivity|].
  split; [assumption|].
  rewrite Nat2Z.inj_succ, Z2Nat.id by apply Z.log2_nonneg.
  destruct (Z.eq_dec n 0) as [->|Hnz]; [reflexivity|].
  apply Z.log2_spec. lia.
Qed.

(* ================================================================== *)
(** * Further properties of the controller *)

(** ** The canvas keeps the size of the panel *)










(** ** Rectangles as pixel rules *)

Lemma mapi_from_compose {A B C : Type} (f : Z -> B -> C) (g : Z -> A -> B)
    (l : list A) (i : Z) :
  mapi_from f i (mapi_from g i l) = mapi_from (fun k a => f k (g k a)) i l.
Proof.
  revert i; induction l as [|a t IH]; intros i; simpl; [reflexivity|].
  now rewrite IH.
Qed.

Lemma mapi_from_ext {A B : Type} (f g : Z -> A -> B) (l : list A) (i : Z) :
  (forall k a, f k a = g k a) -> mapi_from f i l = mapi_from g i l.
Proof.
  intros H. revert i; induction l as [|a t IH]; intros i; simpl;
    [reflexivity|].
  now rewrite H, IH.
Qed.

Lemma paint_repaint (sel : Z -> Z -> bool) (ink : bool) (im : PIL.image) :
  PIL.paint sel ink im = repaint (fun x y b => if sel x y then ink else b) im.
Proof. reflexivity. Qed.

Lemma repaint_repaint (f g : Z -> Z -> bool -> bool) (im : PIL.image) :
  repaint f (repaint g im) = repaint (fun x y b => f x y (g x y b)) im.
Proof.
  unfold repaint; simpl. f_equal.
  rewrite mapi_from_compose. apply mapi_from_ext. intros y row.
  apply mapi_from_compose.
Qed.

Lemma repaint_ext (f g : Z -> Z -> bool -> bool) (im : PIL.image) :
  (forall x y b, f x y b = g x y b) -> repaint f im = repaint g im.
Proof.
  intros H. unfold repaint. f_equal.
  apply mapi_from_ext. intros y row. apply mapi_from_ext. intros x b. apply H.
Qed.

Lemma ImagingDrawRectangle_repaint (im : PIL.image) (x0 y0 x1 y1 : Z)
    (ink fill : bool) :
  PIL.ImagingDrawRectangle im x0 y0 x1 y1 ink fill =
  repaint
    (fun px py b =>
       if (if fill then in_box x0 y0 x1 y1 px py
           else on_border x0 y0 x1 y1 px py)
       then ink else b)
    im.
Proof.
  unfold PIL.ImagingDrawRectangle, PIL.hline, PIL.vline.
  destruct fill.
  - rewrite paint_repaint. apply repaint_ext. intros px py b.
    replace (PIL.in_span (Z.min y0 y1) (Z.max y0 y1) py && PIL.in_span x0 x1 px)
      with (in_box x0 y0 x1 y1 px py); [reflexivity|].
    unfold in_box, PIL.in_span. same_test.
  - rewrite !paint_repaint, !repaint_repaint. apply repaint_ext.
    intros px py b. rewrite ink_cascade.
    match goal with
    | |- (if ?s then _ else _) = _ =>
        replace s with (on_border x0 y0 x1 y1 px py); [reflexivity|]
    end.
    unfold on_border, in_box, PIL.in_span. same_test.
Qed.

(** [draw_rectangle] rewrites the canvas pixel by pixel with [rect_rule]. *)
Lemma draw_rectangle_repaint (self : DisplayController) (x y w h : pynum)
    (outline fill : bool) :
  draw_rectangle self x y w h outline fill =
  mkController (_display self)
    (repaint (rect_rule x y w h outline fill) (_image self)).
Proof.
  unfold draw_rectangle, PIL.rectangle, rect_rule, corners. f_equal.
  set (x0 := c_int x). set (y0 := c_int y).
  set (x1 := c_int (py_add x w)). set (y1 := c_int (py_add y h)).
  destruct (Bool.eqb outline fill) eqn:E.
  - apply eqb_prop in E. subst fill.
    rewrite ImagingDrawRectangle_repaint. apply repaint_ext. intros px py b.
    cbv beta iota.
    now destruct (in_box x0 y0 x1 y1 px py), (on_border x0 y0 x1 y1 px py).
  - rewrite !ImagingDrawRectangle_repaint, repaint_repaint.
    apply repaint_ext. intros px py b. cbv beta iota. unfold on_border.
    destruct (in_box x0 y0 x1 y1 px py); simpl; [|reflexivity].
    now destruct ((px =? x0) || (px =? x1) || (py =? y0) || (py =? y1)).
Qed.

(** X2: an outlined rectangle with [fill=False] is not transparent: with
    non-negative width and height, the pixels on the four sides of the
    closed region take the outline colour, the pixels strictly inside it
    are set to background, whatever was drawn there, and the pixels
    outside it keep their value. *)
Theorem draw_rectangle_unfilled_erases (self : DisplayController)
    (x y w h : Z) (outline : bool) (px py : Z) (b : bool) :
  0 <= w -> 0 <= h ->
  PIL.getpixel (_image self) px py = Some b ->
  PIL.getpixel (_image (draw_rectangle self x y w h outline false)) px py =
  Some (if (x <=? px) && (px <=? x + w) && (y <=? py) && (py <=? y + h)
        then (if (px =? x) || (px =? x + w) || (py =? y) || (py =? y + h)
              then outline else false)
        else b).
Proof.
  intros Hw Hh Hb.
  rewrite getpixel_draw_rectangle, Hb. unfold box, corners. simpl. f_equal.
  assert (Hbox : in_box x y (x + w) (y + h) px py =
                 (x <=? px) && (px <=? x + w) && (y <=? py) && (py <=? y + h)).
  { unfold in_box, PIL.in_span. same_test. }
  unfold on_border. rewrite Hbox.
  now destruct ((x <=? px) && (px <=? x + w) && (y <=? py) && (py <=? y + h)).
Qed.

Lemma draw_rectangle_unfilled_erases_witness :
  PIL.getpixel
    (_image (draw_rectangle (draw_rectangle booted 0 0 10 5 true true)
               2 1 4 3 true false)) 4 2 = Some false.
Proof.
  exact (draw_rectangle_unfilled_erases
           (draw_rectangle booted 0 0 10 5 true true) 2 1 4 3 true 4 2 true
           ltac:(lia) ltac:(lia) eq_refl).
Defined.

(** X3: drawing the same rectangle a second time changes nothing. *)
Theorem draw_rectangle_twice (self : DisplayController) (x y w h : pynum)
    (outline fill : bool) :
  draw_rectangle (draw_rectangle self x y w h outline fill)
    x y w h outline fill =
  draw_rectangle self x y w h outline fill.
Proof.
  rewrite !draw_rectangle_repaint. simpl. f_equal.
  rewrite repaint_repaint. apply repaint_ext. intros px py b.
  unfold rect_rule, corners.
  set (x0 := c_int x). set (y0 := c_int y).
  set (x1 := c_int (py_add x w)). set (y1 := c_int (py_add y h)).
  now destruct (in_box x0 y0 x1 y1 px py), (on_border x0 y0 x1 y1 px py).
Qed.

(** X4: two rectangles whose closed boxes share no pixel can be drawn in
    either order. *)
Theorem draw_rectangle_disjoint_commute (self : DisplayController)
    (x y w h x' y' w' h' : pynum) (outline fill outline' fill' : bool) :
  (forall px py, box x y w h px py = true -> box x' y' w' h' px py = false) ->
  draw_rectangle (draw_rectangle self x y w h outline fill)
    x' y' w' h' outline' fill' =
  draw_rectangle (draw_rectangle self x' y' w' h' outline' fill')
    x y w h outline fill.
Proof.
  intros Hd. rewrite !draw_rectangle_repaint. simpl. f_equal.
  rewrite !repaint_repaint. apply repaint_ext. intros px py b.
  specialize (Hd px py). unfold rect_rule, box, corners in *.
  destruct (in_box (c_int x) (c_int y) (c_int (py_add x w))
              (c_int (py_add y h)) px py); [|reflexivity].
  now rewrite (Hd eq_refl).
Qed.

Lemma draw_rectangle_disjoint_commute_witness :
  draw_rectangle (draw_rectangle booted 2 20 23 13 true false)
    27 20 23 13 true false =
  draw_rectangle (draw_rectangle booted 27 20 23 13 true false)
    2 20 23 13 true false.
Proof.
  apply draw_rectangle_disjoint_commute.
  intros px py. unfold box, corners, in_box. simpl.
  intros H. apply andb_true_iff in H. destruct H as [Hx _].
  apply in_span_iff in Hx.
  replace (PIL.in_span 27 50 px) with false; [reflexivity|].
  symmetry. apply not_true_is_false. intros Hx'. apply in_span_iff in Hx'.
  lia.
Defined.

(** ** [draw_text] *)




(** ** More on [draw_service_status] *)

(** X6: the widget issues no drawing call at all exactly when every
    service of the mapping is active. *)
Theorem service_status_silent (e : env) (x y : Z)
    (services : list (string * string)) :
  draw_service_status e x y services = []
  <-> Forall (fun sn => get_service_status e (fst sn) = active) services.
Proof.
  revert x. induction services as [|[service name] rest IH]; intros x.
  - split; [constructor|reflexivity].
  - rewrite draw_service_status_cons. split.
    + intros H. apply app_eq_nil in H. destruct H as [Hb Hr].
      constructor; [|now apply (IH (x + 25))].
      simpl. now destruct (get_service_status e service).
    + intros H. inversion H as [|sn l Hs Hrest]; subst. simpl in Hs.
      rewrite Hs. simpl. now apply IH.
Qed.

(** X7: the marks of a mapping in two parts are the marks of the first
    part followed by the marks of the second, drawn 25 pixels further to
    the right for every service of the first part. *)
Theorem service_status_app (e : env) (x y : Z)
    (first second : list (string * string)) :
  draw_service_status e x y (first ++ second) =
  draw_service_status e x y first
  ++ draw_service_status e (x + 25 * Z.of_nat (length first)) y second.
Proof.
  revert x. induction first as [|[service name] rest IH]; intros x.
  - simpl. now rewrite Z.add_0_r.
  - rewrite <- app_comm_cons, !draw_service_status_cons, IH, <- app_assoc.
    do 3 f_equal. cbn [length]. lia.
Qed.

(** ** More on [draw_cpu_bars] *)

Lemma Qtrunc_between (a b : Z) (q : Q) :
  (inject_Z a <= q)%Q -> (q <= inject_Z b)%Q -> a <= Qtrunc q <= b.
Proof.
  intros Ha Hb. unfold Qtrunc. destruct (Qle_bool 0 q).
  - split.
    + rewrite <- (Qfloor_Z a). now apply Qfloor_resp_le.
    + rewrite Zle_Qle. pose proof (Qfloor_le q). lra.
  - split.
    + rewrite Zle_Qle. pose proof (Qle_ceiling q). lra.
    + rewrite <- (Qceiling_Z b). now apply Qceiling_resp_le.
Qed.

Lemma Qtrunc_mono (p q : Q) : (p <= q)%Q -> Qtrunc p <= Qtrunc q.
Proof.
  intros H. unfold Qtrunc.
  destruct (Qle_bool 0 p) eqn:Ep, (Qle_bool 0 q) eqn:Eq.
  - now apply Qfloor_resp_le.
  - apply Qle_bool_iff in Ep.
    assert (~ (0 <= q)%Q) by (rewrite <- Qle_bool_iff; congruence).
    exfalso. lra.
  - apply Qle_bool_iff in Eq.
    assert (Hp : ~ (0 <= p)%Q) by (rewrite <- Qle_bool_iff; congruence).
    apply Z.le_trans with 0.
    + rewrite <- (Qceiling_Z 0). apply Qceiling_resp_le.
      change (inject_Z 0) with 0%Q. lra.
    + rewrite <- (Qfloor_Z 0). now apply Qfloor_resp_le.
  - now apply Qceiling_resp_le.
Qed.

Lemma scaled_load_bounds (load : Q) (full : Z) :
  (0 <= load)%Q -> (load <= 100)%Q -> 0 <= full ->
  (0 <= load / 100 * inject_Z full)%Q
  /\ (load / 100 * inject_Z full <= inject_Z full)%Q.
Proof.
  intros H0 H1 Hf.
  assert (HF : (inject_Z 0 <= inject_Z full)%Q) by (now rewrite <- Zle_Qle).
  change (inject_Z 0) with 0%Q in HF.
  assert (Hv0 : (0 <= load / 100)%Q)
    by (unfold Qdiv; change (/ 100)%Q with (1 # 100)%Q; lra).
  assert (Hv1 : (load / 100 <= 1)%Q)
    by (unfold Qdiv; change (/ 100)%Q with (1 # 100)%Q; lra).
  split.
  - now apply Qmult_le_0_compat.
  - setoid_replace (inject_Z full) with (1 * inject_Z full)%Q at 2 by ring.
    now apply Qmult_le_compat_r.
Qed.

Lemma bar_end_bounds (start full : Z) (load : Q) :
  (0 <= load)%Q -> (load <= 100)%Q -> 0 <= full ->
  start <= c_int (py_add start (PyFloat (load / 100 * inject_Z full)))
        <= start + full.
Proof.
  intros H0 H1 Hf. simpl.
  destruct (scaled_load_bounds load full H0 H1 Hf) as [Ha Hb].
  apply Qtrunc_between.
  - lra.
  - rewrite inject_Z_plus. lra.
Qed.

(** X8: with loads between 0 and 100 per cent and a non-negative full
    length, every bar starts at the anchor of the widget along the axis its
    load scales and ends within the full length: no bar overflows its
    slot. *)
Theorem cpu_bars_within_slot (e : env)
    (x y bar_width bar_height padding : Z) (horizontal : bool)
    (bars : list call) :
  Forall (fun load => (0 <= load)%Q /\ (load <= 100)%Q) (cpu_per_core e) ->
  0 <= (if horizontal then bar_width else bar_height) ->
  draw_cpu_bars e x y bar_width bar_height padding horizontal true = Ok bars ->
  Forall
    (fun c =>
       let start := if horizontal then x else y in
       let full := if horizontal then bar_width else bar_height in
       fst (load_axis horizontal c) = start
       /\ start <= snd (load_axis horizontal c) <= start + full)
    bars.
Proof.
  intros Hloads Hfull Hok.
  unfold draw_cpu_bars, psutil.cpu_percent, py_iter, bind in Hok.
  injection Hok as <-.
  destruct horizontal.
  - revert y. induction Hloads as [|load rest [H0 H1] Hrest IH]; intros y;
      simpl; constructor; [|apply IH].
    split; [reflexivity|]. now apply bar_end_bounds.
  - revert x. induction Hloads as [|load rest [H0 H1] Hrest IH]; intros x;
      simpl; constructor; [|apply IH].
    split; [reflexivity|]. now apply bar_end_bounds.
Qed.

Lemma cpu_bars_within_slot_witness :
  Forall
    (fun c => fst (load_axis true c) = 2
              /\ 2 <= snd (load_axis true c) <= 2 + 125)
    [Rect 2 40 (PyFloat ((10 # 1) / 100 * inject_Z 125)) 3 true true;
     Rect 2 45 (PyFloat ((199 # 2) / 100 * inject_Z 125)) 3 true true].
Proof.
  apply (cpu_bars_within_slot two_core_host 2 40 125 3 1 true).
  - repeat constructor; discriminate.
  - simpl. lia.
  - reflexivity.
Defined.

(** X9: the end of a bar along the axis its load scales grows with the
    load: of two readings for the same core, the higher one never gives
    the shorter bar. *)
Theorem cpu_bar_monotone (e1 e2 : env)
    (x y bar_width bar_height padding : Z) (horizontal : bool)
    (bars1 bars2 : list call) (i : nat) (a b : Q) (c1 c2 : call) :
  0 <= (if horizontal then bar_width else bar_height) ->
  draw_cpu_bars e1 x y bar_width bar_height padding horizontal true = Ok bars1 ->
  draw_cpu_bars e2 x y bar_width bar_height padding horizontal true = Ok bars2 ->
  nth_error (cpu_per_core e1) i = Some a ->
  nth_error (cpu_per_core e2) i = Some b ->
  (a <= b)%Q ->
  nth_error bars1 i = Some c1 ->
  nth_error bars2 i = Some c2 ->
  snd (load_axis horizontal c1) <= snd (load_axis horizontal c2).
Proof.
  intros Hfull H1 H2 Ha Hb Hab Hc1 Hc2.
  unfold draw_cpu_bars, psutil.cpu_percent, py_iter, bind in H1, H2.
  injection H1 as <-. injection H2 as <-.
  pose proof (cpu_bars_loop_bar_at x y bar_width bar_height padding
                horizontal (cpu_per_core e1) 0) as L1.
  pose proof (cpu_bars_loop_bar_at x y bar_width bar_height padding
                horizontal (cpu_per_core e2) 0) as L2.
  assert (Hx : (if horizontal then x else x + 0 * (bar_width + 1 + padding)) = x)
    by (destruct horizontal; lia).
  assert (Hy : (if horizontal then y + 0 * (bar_height + 1 + padding) else y) = y)
    by (destruct horizontal; lia).
  rewrite Hx, Hy in L1, L2. rewrite L1 in Hc1. rewrite L2 in Hc2.
  rewrite nth_error_mapi_from in Hc1, Hc2. rewrite Ha in Hc1. rewrite Hb in Hc2.
  simpl in Hc1, Hc2. injection Hc1 as <-. injection Hc2 as <-.
  assert (Hscale : forall full, 0 <= full ->
             (a / 100 * inject_Z full <= b / 100 * inject_Z full)%Q).
  { intros full Hf. apply Qmult_le_compat_r;
      [unfold Qdiv; change (/ 100)%Q with (1 # 100)%Q; lra|].
    change 0%Q with (inject_Z 0). now rewrite <- Zle_Qle. }
  unfold bar_at. destruct horizontal; simpl; apply Qtrunc_mono;
    specialize (Hscale _ Hfull); lra.
Qed.

Lemma cpu_bar_monotone_witness :
  snd (load_axis true
         (Rect 2 40 (PyFloat ((10 # 1) / 100 * inject_Z 125)) 3 true true))
  <= snd (load_axis true
            (Rect 2 40 (PyFloat ((199 # 2) / 100 * inject_Z 125)) 3 true true)).
Proof.
  apply (cpu_bar_monotone
           (one_core_host (10 # 1)) (one_core_host (199 # 2))
           2 40 125 3 1 true
           [Rect 2 40 (PyFloat ((10 # 1) / 100 * inject_Z 125)) 3 true true]
           [Rect 2 40 (PyFloat ((199 # 2) / 100 * inject_Z 125)) 3 true true]
           0%nat (10 # 1) (199 # 2));
    try reflexivity.
  - simpl. lia.
  - discriminate.
Defined.

(** ** More on [draw_system_uptime] *)

Lemma Qfloor_unique (q : Q) (n : Z) :
  (inject_Z n <= q)%Q -> (q < inject_Z (n + 1))%Q -> Qfloor q = n.
Proof.
  intros Hlo Hhi.
  pose proof (Qfloor_le q) as H1. pose proof (Qlt_floor q) as H2.
  assert (Qfloor q < n + 1) by (rewrite Zlt_Qlt; lra).
  assert (n < Qfloor q + 1) by (rewrite Zlt_Qlt; lra).
  lia.
Qed.

Lemma round_whole_seconds (q : Q) (n : Z) :
  (q == inject_Z n)%Q -> 0 <= n -> round_half_us q = n * 1000000.
Proof.
  intros Hq Hn. unfold round_half_us, datetime.round_to_long.
  assert (Hp : (q * inject_Z 1000000 == inject_Z (n * 1000000))%Q)
    by (rewrite inject_Z_mult, Hq; reflexivity).
  assert (H0 : (inject_Z 0 <= inject_Z (n * 1000000))%Q)
    by (rewrite <- Zle_Qle; lia).
  change (inject_Z 0) with 0%Q in H0.
  assert (E : Qle_bool 0 (q * inject_Z 1000000) = true)
    by (apply Qle_bool_iff; rewrite Hp; exact H0).
  rewrite E. apply Qfloor_unique.
  - rewrite Hp. lra.
  - rewrite Hp, inject_Z_plus. change (inject_Z 1) with 1%Q. lra.
Qed.

Lemma py_slice_to_minus (s : string) (k : nat) :
  (0 < k)%nat ->
  py_slice_to s (- Z.of_nat k) = substring 0 (String.length s - k) s.
Proof.
  intros Hk. unfold py_slice_to.
  replace (- Z.of_nat k <? 0) with true by (symmetry; apply Z.ltb_lt; lia).
  f_equal. lia.
Qed.

Lemma substring_0_0 (s : string) : substring 0 0 s = ""%string.
Proof. now destruct s. Qed.

Lemma fmt_d_two_digits (n : Z) : 10 <= n < 100 -> fmt_d n = two_digits n.
Proof.
  intros Hn.
  assert (Hall : forallb (fun k => String.eqb (fmt_d (Z.of_nat k))
                                     (two_digits (Z.of_nat k)))
                   (seq 10 90) = true) by (vm_compute; reflexivity).
  rewrite forallb_forall in Hall.
  specialize (Hall (Z.to_nat n)).
  rewrite Z2Nat.id in Hall by lia.
  apply String.eqb_eq, Hall, in_seq. lia.
Qed.

Lemma fmt_d_one_digit (n : Z) :
  0 <= n < 10 -> (String.length (fmt_d n) <= 1)%nat.
Proof.
  intros Hn. unfold fmt_d.
  replace (n <? 0) with false by (symmetry; apply Z.ltb_ge; lia).
  pose proof (digits_aux_length (S (Z.to_nat (Z.log2 n))) 1 n ""
                ltac:(lia) ltac:(change (10 ^ Z.of_nat 1) with 10; lia)) as H.
  fold (digits n) in H. simpl in H. lia.
Qed.

(** X10: after a whole number of seconds [str] prints no fraction, and the
    slice [[:-7]] cuts into the time itself: below ten hours the widget
    shows the empty string, and from ten hours to a day only the first
    digit of the hours. *)
Theorem uptime_whole_seconds_cut (e : env) (n : Z) :
  (proc_uptime e == inject_Z n)%Q ->
  0 <= n < 86400 ->
  get_system_uptime e =
  if n <? 36000 then ""%string else String (digit (n / 36000)) "".
Proof.
  intros Hq Hn. unfold get_system_uptime, datetime.of_seconds.
  fold (round_half_us (proc_uptime e)).
  rewrite (round_whole_seconds _ n Hq) by lia.
  rewrite Z.div_mul, Z.mod_mul by lia.
  rewrite Z.div_small, Z.mod_small by lia.
  unfold datetime.str.
  cbn [datetime.days datetime.seconds datetime.microseconds]. cbv zeta.
  change (0 =? 0) with true. cbv iota.
  rewrite Z.div_div by lia. change (60 * 60) with 3600.
  rewrite !fmt_02d_two_digits.
  2:{ pose proof (Z.mod_pos_bound n 60). lia. }
  2:{ pose proof (Z.mod_pos_bound (n / 60) 60). lia. }
  rewrite (py_slice_to_minus _ 7) by lia.
  rewrite string_length_app.
  assert (Hh : 0 <= n / 3600 < 24).
  { split; [apply Z.div_pos; lia|apply Z.div_lt_upper_bound; lia]. }
  destruct (Z.ltb_spec n 36000) as [Hlt|Hge].
  - assert (n / 3600 < 10) by (apply Z.div_lt_upper_bound; lia).
    pose proof (fmt_d_one_digit (n / 3600) ltac:(lia)) as Hlen.
    cbn [two_digits append String.length].
    replace (String.length (fmt_d (n / 3600)) + 6 - 7)%nat with 0%nat by lia.
    apply substring_0_0.
  - assert (10 <= n / 3600) by (apply Z.div_le_lower_bound; lia).
    rewrite (fmt_d_two_digits (n / 3600)) by lia.
    replace (n / 36000) with (n / 3600 / 10)
      by (rewrite Z.div_div by lia; reflexivity).
    reflexivity.
Qed.

Lemma uptime_whole_seconds_cut_witness :
  get_system_uptime (host_up (7322 # 2)) =
  if 3661 <? 36000 then ""%string else String (digit (3661 / 36000)) "".
Proof.
  apply (uptime_whole_seconds_cut (host_up (7322 # 2)) 3661).
  - reflexivity.
  - lia.
Defined.

(** ** [_get_current_time] and [_get_current_date] *)

Lemma zfill_two_digits (n : Z) :
  0 <= n < 100 -> zfill (str n) 2 = two_digits n.
Proof.
  intros Hn.
  assert (Hall : forallb (fun k => String.eqb (zfill (str (Z.of_nat k)) 2)
                                     (two_digits (Z.of_nat k)))
                   (seq 0 100) = true) by (vm_compute; reflexivity).
  rewrite forallb_forall in Hall.
  specialize (Hall (Z.to_nat n)).
  rewrite Z2Nat.id in Hall by lia.
  apply String.eqb_eq, Hall, in_seq. lia.
Qed.

Lemma number_two_digits (n : Z) :
  0 <= n < 100 -> number (two_digits n) 0 = n.
Proof.
  intros Hn. unfold two_digits. cbn [number].
  pose proof (Z.mod_pos_bound n 10 ltac:(lia)).
  pose proof (Z.div_mod n 10 ltac:(lia)).
  assert (0 <= n / 10 < 10)
    by (split; [apply Z.div_pos; lia|apply Z.div_lt_upper_bound; lia]).
  rewrite !digit_value by assumption. lia.
Qed.

Lemma substring_all (s : string) : substring 0 (String.length s) s = s.
Proof. induction s as [|c s IH]; simpl; [reflexivity|now rewrite IH]. Qed.

(** X11: on a valid reading of the clock [_get_current_time] is exactly
    eight characters, [HH:MM:SS] with two digits each, and the hour, the
    minute and the second can be read back from it. *)
Theorem current_time_format (t : time.struct_time) :
  valid_clock t ->
  let s := _get_current_time t in
  s = (two_digits (time.tm_hour t) ++ ":" ++ two_digits (time.tm_min t)
         ++ ":" ++ two_digits (time.tm_sec t))%string
  /\ String.length s = 8%nat
  /\ number (substring 0 2 s) 0 = time.tm_hour t
  /\ number (substring 3 2 s) 0 = time.tm_min t
  /\ number (substring 6 2 s) 0 = time.tm_sec t.
Proof.
  intros [Hh [Hm Hs]] s. subst s. unfold _get_current_time. cbv zeta.
  rewrite !zfill_two_digits by lia.
  split; [reflexivity|]. split; [reflexivity|].
  pose proof (number_two_digits (time.tm_hour t) ltac:(lia)) as Nh.
  pose proof (number_two_digits (time.tm_min t) ltac:(lia)) as Nm.
  pose proof (number_two_digits (time.tm_sec t) ltac:(lia)) as Ns.
  repeat split; assumption.
Qed.

Lemma current_time_format_witness :
  let s := _get_current_time a_clock in
  s = (two_digits 12 ++ ":" ++ two_digits 7 ++ ":" ++ two_digits 9)%string
  /\ String.length s = 8%nat
  /\ number (substring 0 2 s) 0 = 12
  /\ number (substring 3 2 s) 0 = 7
  /\ number (substring 6 2 s) 0 = 9.
Proof.
  apply (current_time_format a_clock). unfold valid_clock. simpl. lia.
Defined.

(** X12: on a valid date [_get_current_date] is the day and the month
    with two digits each and the year in full, separated by points, and
    the three can be read back from it. *)
Theorem current_date_format (t : time.struct_time) :
  valid_date t ->
  let s := _get_current_date t in
  s = (two_digits (time.tm_mday t) ++ "." ++ two_digits (time.tm_mon t)
         ++ "." ++ digits (time.tm_year t))%string
  /\ number (substring 0 2 s) 0 = time.tm_mday t
  /\ number (substring 3 2 s) 0 = time.tm_mon t
  /\ number (substring 6 (String.length s - 6) s) 0 = time.tm_year t.
Proof.
  intros [Hy [Hm Hd]] s. subst s. unfold _get_current_date. cbv zeta.
  rewrite !zfill_two_digits by lia.
  unfold str, fmt_d.
  replace (time.tm_year t <? 0) with false by (symmetry; apply Z.ltb_ge; lia).
  split; [reflexivity|].
  pose proof (number_two_digits (time.tm_mday t) ltac:(lia)) as Nd.
  pose proof (number_two_digits (time.tm_mon t) ltac:(lia)) as Nm.
  split; [exact Nd|]. split; [exact Nm|].
  unfold two_digits.
  cbn [append String.length substring Nat.sub].
  rewrite Nat.sub_0_r, substring_all. now apply digits_number.
Qed.

Lemma current_date_format_witness :
  let s := _get_current_date a_clock in
  s = (two_digits 4 ++ "." ++ two_digits 11 ++ "." ++ digits 2026)%string
  /\ number (substring 0 2 s) 0 = 4
  /\ number (substring 3 2 s) 0 = 11
  /\ number (substring 6 (String.length s - 6) s) 0 = 2026.
Proof.
  apply (current_date_format a_clock). unfold valid_date. simpl. lia.
Defined.

(** ** The loop of the demo script *)



Lemma cycle_as_render (e : env) (c : DisplayController) :
  cycle e c =
  render_canvas (perform_all e (cleared c) (demo_calls e (get_display_width c))).
Proof.
  unfold cycle, clear_canvas, draw_cpu_bars, py_iter, psutil.cpu_percent,
    bind, demo_calls.
  fold (cleared c).
  unfold get_display_width. rewrite !perform_all_display.
  change (SSD1306.width (_display (cleared c)))
    with (SSD1306.width (_display c)).
  rewrite !perform_all_app, <- ?app_assoc. reflexivity.
Qed.




(** X14: on a bus that does not answer, the first turn of the loop ends
    in [IOError], whatever the readings of the host: the drawing itself
    never fails, the flush does, and nothing catches it. *)
Theorem run_loop_dead_bus (e : env) (rest : list env)
    (controller : DisplayController) :
  SSD1306.bus_up (_display controller) = false ->
  cycle e controller = Raise IOError
  /\ run_loop (e :: rest) controller = Raise IOError.
Proof.
  intros Hdown.
  assert (Hc : cycle e controller = Raise IOError).
  { rewrite cycle_as_render.
    destruct (perform_all_size e (demo_calls e (get_display_width controller))
                (cleared controller)) as [Hw Hh].
    rewrite render_canvas_sized
      by (rewrite perform_all_display; first [rewrite Hw|rewrite Hh];
          reflexivity).
    rewrite perform_all_display. simpl. now rewrite Hdown. }
  split; [exact Hc|]. cbn [run_loop]. now rewrite Hc.
Qed.

Lemma run_loop_dead_bus_witness :
  cycle two_core_host unplugged = Raise IOError
  /\ run_loop [two_core_host; all_zero_host] unplugged = Raise IOError.
Proof.
  apply (run_loop_dead_bus two_core_host [all_zero_host] unplugged).
  reflexivity.
Defined.
